(** * update-services.sh: the rollout orchestrator, embedded and verified

    The script [scripts/update-services.sh] forces a new deployment of a
    list of ECS services, optionally waits for each of them to stabilise,
    audits their health and ends with a summary and an exit status.

    The embedding follows the script function by function.  A shell command
    is a value of the monad [sh]: it writes events (lines on standard
    output and invocations of the [aws] command line tool) and either
    completes with a value or terminates the whole shell with an exit
    status.  The script runs under [set -e] (line 7); the combinator
    [errexit] is placed exactly where a command is executed in a context in
    which bash honours that option. *)

From Stdlib Require Import List String Ascii Bool Arith ZArith Lia.
Import ListNotations.

Local Open Scope string_scope.
Local Open Scope list_scope.

Local Infix "^" := String.append (at level 30, right associativity) : string_scope.

(** ** Events and the collaborator *)

(** One invocation of the [aws] tool, with the arguments the script varies.
    [--force-new-deployment] is part of every [update-service] call of the
    script, so it is not an argument here. *)
Inductive aws_call : Type :=
| describe_clusters (cluster region : string)
| describe_services (cluster service_name region query output : string)
| update_service_force (cluster service_name region query output : string)
| wait_services_stable (cluster service_name region : string).

Inductive severity : Type := INFO | WARNING | ERROR | STEP.

(** What a run leaves behind, in order: the [log_*] helpers (lines 30-44)
    write a coloured severity tag and the message, [echo] writes a raw line,
    [aws] may write to the script's standard output when it is not
    redirected, and every invocation of [aws] is recorded.  [Log] holds
    the message as it is passed to the helper (the colour codes and the
    escapes [echo -e] would expand in it are left out); standard error is
    not part of the trace. *)
Inductive event : Type :=
| Log (sev : severity) (msg : string)
| Echo (line : string)
| AwsOutput (text : string)
| Call (c : aws_call).

(** The collaborator: whether [command -v aws] finds the tool, and for each
    command line the text written on standard output and the exit status.
    The services of a run are distinct (lines 23-27), so no command line is
    issued twice in a run and answers indexed by the command line lose
    nothing. *)
Record aws_cli : Type := {
  aws_installed : bool;
  aws : aws_call -> string * nat
}.

(** ** The shell monad *)

Inductive outcome (A : Type) : Type :=
| Done (a : A)
| Exit (code : nat).
Arguments Done {A} a.
Arguments Exit {A} code.

Definition sh (A : Type) : Type := (list event * outcome A)%type.

Definition ret {A : Type} (a : A) : sh A := ([], Done a).

Definition bind {A B : Type} (m : sh A) (f : A -> sh B) : sh B :=
  match snd m with
  | Done a => (fst m ++ fst (f a), snd (f a))
  | Exit code => (fst m, Exit code)
  end.

Notation "x <- m ;; k" := (bind m (fun x => k))
  (at level 61, m at next level, right associativity).
Notation "m ;;; k" := (bind m (fun _ => k))
  (at level 61, right associativity).

Definition emit (e : event) : sh unit := ([e], Done tt).

(** [exit n] *)
Definition exit {A : Type} (code : nat) : sh A := ([], Exit code).

(** A simple command or function call executed where [set -e] is honoured:
    a non-zero status terminates the shell with that status. *)
Definition errexit (m : sh nat) : sh unit :=
  rc <- m ;; if Nat.eqb rc 0 then ret tt else exit rc.

(** [for x in "${l[@]}"; do body; done], threading the local variables the
    body updates. *)
Fixpoint for_each {A S : Type} (l : list A) (body : A -> S -> sh S) (s : S)
  : sh S :=
  match l with
  | [] => ret s
  | x :: l' => s' <- body x s ;; for_each l' body s'
  end.

Definition log_info (msg : string) : sh unit := emit (Log INFO msg).
Definition log_warning (msg : string) : sh unit := emit (Log WARNING msg).
Definition log_error (msg : string) : sh unit := emit (Log ERROR msg).
Definition log_step (msg : string) : sh unit := emit (Log STEP msg).
Definition echo (line : string) : sh unit := emit (Echo line).

(** ** Shell builtins the script relies on *)

Definition LF : ascii := ascii_of_nat 10.

(** The one-character string holding a double quote. *)
Definition dquote : string := String (ascii_of_nat 34) EmptyString.

(** Command substitution [$(...)] removes every trailing newline. *)
Fixpoint command_subst (s : string) : string :=
  match s with
  | EmptyString => EmptyString
  | String c r =>
      let r' := command_subst r in
      if (Ascii.eqb c LF && String.eqb r' EmptyString)%bool then EmptyString
      else String c r'
  end.

(** ["${l[*]}"]: the elements joined by a space. *)
Definition join (l : list string) : string := String.concat " " l.

Definition is_digit (c : ascii) : bool :=
  let n := nat_of_ascii c in ((48 <=? n) && (n <=? 57))%nat.

Definition is_blank (c : ascii) : bool :=
  let n := nat_of_ascii c in ((n =? 32) || (n =? 9))%nat.

Definition is_space (c : ascii) : bool :=
  let n := nat_of_ascii c in ((n =? 32) || ((9 <=? n) && (n <=? 13)))%nat.

Fixpoint skip_spaces (s : string) : string :=
  match s with
  | String c r => if is_space c then skip_spaces r else s
  | EmptyString => s
  end.

Fixpoint all_blank (s : string) : bool :=
  match s with
  | String c r => is_blank c && all_blank r
  | EmptyString => true
  end.

(** Decimal digits, most significant first, then blanks up to the end. *)
Fixpoint digits (s : string) (seen : bool) (acc : Z) : option Z :=
  match s with
  | String c r =>
      if is_digit c
      then digits r true (10 * acc + Z.of_nat (nat_of_ascii c - 48))%Z
      else if seen && all_blank s then Some acc else None
  | EmptyString => if seen then Some acc else None
  end.

(** The integers the [test] builtin accepts as operands of [-eq]: optional
    white space, an optional sign, decimal digits, optional blanks, within
    the range of a 64-bit signed integer. *)
Definition legal_number (s : string) : option Z :=
  let in_range (v : Z) :=
    if ((- 2 ^ 63 <=? v) && (v <=? 2 ^ 63 - 1))%Z then Some v else None in
  match skip_spaces s with
  | String "-" r =>
      match digits r false 0 with Some v => in_range (- v)%Z | None => None end
  | String "+" r =>
      match digits r false 0 with Some v => in_range v | None => None end
  | r =>
      match digits r false 0 with Some v => in_range v | None => None end
  end.

(** Status of [[ "$a" -eq "$b" ]]: 0 when equal, 1 when different, 2 when
    an operand is not an integer. *)
Definition test_eq (a b : string) : nat :=
  match legal_number a, legal_number b with
  | Some x, Some y => if (x =? y)%Z then 0 else 1
  | _, _ => 2
  end.

(** ** Configuration (lines 16-27) *)

Record config : Type := {
  AWS_REGION : string;
  ENVIRONMENT_NAME : string;
  CLUSTER_NAME : string;
  WAIT_FOR_STABLE : string;
  SERVICES : list string
}.

(** [${VAR:-default}]: the default when the variable is unset or empty. *)
Definition default_to (v : option string) (d : string) : string :=
  match v with
  | None => d
  | Some EmptyString => d
  | Some s => s
  end.

(** [$1]: empty when there is no positional argument. *)
Definition arg1 (args : list string) : string := nth 0 args EmptyString.

Definition configure (getenv : string -> option string) (args : list string)
  : config :=
  let region := default_to (getenv "AWS_REGION") "eu-west-1" in
  let environment := default_to (getenv "ENVIRONMENT_NAME") "ecs-trial" in
  {| AWS_REGION := region;
     ENVIRONMENT_NAME := environment;
     CLUSTER_NAME := environment ^ "-cluster";
     WAIT_FOR_STABLE := default_to (getenv "WAIT_FOR_STABLE") "true";
     SERVICES :=
       if String.eqb (arg1 args) EmptyString then ["auth"; "users"; "tasks"; "frontend"]
       else [arg1 args] |}.

(** ** The functions of the script *)

Section Script.

Variable cfg : config.
Variable cli : aws_cli.

Definition run_aws (c : aws_call) : sh (string * nat) :=
  ([Call c], Done (aws cli c)).

Definition service_name_of (service : string) : string :=
  ENVIRONMENT_NAME cfg ^ "-" ^ service ^ "-service".

(** Lines 47-62.  Both tests are conditions of an [if], all output of the
    [aws] call is discarded. *)
Definition check_prerequisites : sh unit :=
  log_step "Checking prerequisites..." ;;;
  if negb (aws_installed cli) then
    log_error "AWS CLI is not installed. Please install AWS CLI first." ;;;
    exit 1
  else
    r <- run_aws (describe_clusters (CLUSTER_NAME cfg) (AWS_REGION cfg)) ;;
    if negb (Nat.eqb (snd r) 0) then
      log_error ("ECS cluster '" ^ CLUSTER_NAME cfg
                 ^ "' not found in region " ^ AWS_REGION cfg) ;;;
      exit 1
    else
      log_info "Prerequisites check passed ✓".

Definition status_query (service : string) : aws_call :=
  describe_services (CLUSTER_NAME cfg) (service_name_of service)
    (AWS_REGION cfg) "services[0].status" "text".

Definition redeploy_command (service : string) : aws_call :=
  update_service_force (CLUSTER_NAME cfg) (service_name_of service)
    (AWS_REGION cfg) "service.serviceName" "text".

(** Lines 65-101.  The only call site is the condition of an [if] (line
    201), so [set -e] is ignored in the body; the status of the first [aws]
    call is masked by [local], its output decides. *)
Definition update_service (service : string) : sh nat :=
  log_step ("Updating " ^ service ^ " service...") ;;;
  r <- run_aws (status_query service) ;;
  let service_status := command_subst (fst r) in
  if negb (String.eqb service_status "ACTIVE") then
    log_error ("Service '" ^ service_name_of service
               ^ "' not found or not active") ;;;
    ret 1
  else
    log_info ("Forcing new deployment for " ^ service ^ " service...") ;;;
    r' <- run_aws (redeploy_command service) ;;
    if Nat.eqb (snd r') 0 then
      log_info ("Deployment initiated for " ^ service ^ " service ✓") ;;;
      ret 0
    else
      log_error ("Failed to update " ^ service ^ " service") ;;;
      ret 1.

Definition wait_command (service : string) : aws_call :=
  wait_services_stable (CLUSTER_NAME cfg) (service_name_of service)
    (AWS_REGION cfg).

(** Lines 104-125.  The only call site is negated in the condition of an
    [if] (line 223), so [set -e] is ignored in the body. *)
Definition wait_for_service (service : string) : sh nat :=
  log_step ("Waiting for " ^ service ^ " service to stabilize...") ;;;
  log_info "This may take 5-10 minutes..." ;;;
  r <- run_aws (wait_command service) ;;
  emit (AwsOutput (fst r)) ;;;
  if Nat.eqb (snd r) 0 then
    log_info (service ^ " service is now stable ✓") ;;;
    ret 0
  else
    log_error (service ^ " service failed to stabilize") ;;;
    log_error ("Check CloudWatch Logs for details: aws logs tail /ecs/"
               ^ ENVIRONMENT_NAME cfg ^ " --follow --filter-pattern "
               ^ dquote ^ service ^ dquote) ;;;
    ret 1.

Definition deployments_query (service : string) : aws_call :=
  describe_services (CLUSTER_NAME cfg) (service_name_of service)
    (AWS_REGION cfg)
    "services[0].deployments[*].[id,status,runningCount,desiredCount,rolloutState]"
    "table".

(** Lines 128-140.  The only call site (line 238) is a plain command of
    [main], so [set -e] is honoured in the body: a failing [aws] call ends
    the shell with the status of that call.  The table goes to the
    script's standard output. *)
Definition get_deployment_status (service : string) : sh nat :=
  log_step ("Getting deployment status for " ^ service ^ "...") ;;;
  errexit (r <- run_aws (deployments_query service) ;;
           emit (AwsOutput (fst r)) ;;;
           ret (snd r)) ;;;
  ret 0.

Definition running_query (service : string) : aws_call :=
  describe_services (CLUSTER_NAME cfg) (service_name_of service)
    (AWS_REGION cfg) "services[0].runningCount" "text".

Definition desired_query (service : string) : aws_call :=
  describe_services (CLUSTER_NAME cfg) (service_name_of service)
    (AWS_REGION cfg) "services[0].desiredCount" "text".

(** Lines 143-172.  The statuses of both [aws] calls are masked by
    [local]; the comparison is the condition of an [if].  The function
    returns 0 or 1. *)
Definition check_service_health (service : string) : sh nat :=
  log_step ("Checking " ^ service ^ " service health...") ;;;
  r <- run_aws (running_query service) ;;
  let running_count := command_subst (fst r) in
  r' <- run_aws (desired_query service) ;;
  let desired_count := command_subst (fst r') in
  log_info ("Running tasks: " ^ running_count ^ "/" ^ desired_count) ;;;
  if Nat.eqb (test_eq running_count desired_count) 0 then
    log_info (service ^ " service is healthy ✓") ;;;
    ret 0
  else
    log_warning (service ^ " service is not at desired capacity") ;;;
    ret 1.

Definition rule : string := "==========================================".
Definition thin_rule : string := "------------------------------------------".

(** Lines 176-185 of [main]. *)
Definition banner : sh unit :=
  echo EmptyString ;;;
  log_info rule ;;;
  log_info "  ECS Service Update" ;;;
  log_info rule ;;;
  log_info ("Environment: " ^ ENVIRONMENT_NAME cfg) ;;;
  log_info ("Cluster: " ^ CLUSTER_NAME cfg) ;;;
  log_info ("Region: " ^ AWS_REGION cfg) ;;;
  log_info ("Services: " ^ join (SERVICES cfg)) ;;;
  log_info ("Wait for stable: " ^ WAIT_FOR_STABLE cfg) ;;;
  echo EmptyString.

(** The local arrays of [main] (lines 191-192). *)
Record arrays : Type := {
  failed_services : list string;
  updated_services : list string
}.

(** Lines 195-206 of [main]: the body of the first loop. *)
Definition trigger_one (service : string) (a : arrays) : sh arrays :=
  echo EmptyString ;;;
  log_info thin_rule ;;;
  log_info ("Updating " ^ service ^ " service") ;;;
  log_info thin_rule ;;;
  rc <- update_service service ;;
  if Nat.eqb rc 0 then
    ret {| failed_services := failed_services a;
           updated_services := updated_services a ++ [service] |}
  else
    ret {| failed_services := failed_services a ++ [service];
           updated_services := updated_services a |}.

(** Lines 221-226 of [main]: the body of the second loop. *)
Definition wait_one (service : string) (a : arrays) : sh arrays :=
  echo EmptyString ;;;
  rc <- wait_for_service service ;;
  if negb (Nat.eqb rc 0) then
    ret {| failed_services := failed_services a ++ [service];
           updated_services := updated_services a |}
  else ret a.

(** Lines 235-239 of [main]: the body of the third loop.  Both calls are
    plain commands, so [set -e] applies to their statuses. *)
Definition audit_one (service : string) (a : arrays) : sh arrays :=
  echo EmptyString ;;;
  errexit (check_service_health service) ;;;
  errexit (get_deployment_status service) ;;;
  ret a.

(** Lines 241-263 of [main]. *)
Definition summary (a : arrays) : sh unit :=
  echo EmptyString ;;;
  log_info rule ;;;
  log_info "  Update Summary" ;;;
  log_info rule ;;;
  if Nat.eqb (List.length (failed_services a)) 0 then
    log_info "All services updated successfully! ✓" ;;;
    echo EmptyString ;;;
    log_info "Updated services:" ;;;
    for_each (updated_services a)
      (fun service _ => echo ("  • " ^ service ^ "-service")) tt ;;;
    echo EmptyString ;;;
    log_info "Monitor your deployment:" ;;;
    echo ("  aws ecs describe-services --cluster " ^ CLUSTER_NAME cfg
          ^ " --services " ^ ENVIRONMENT_NAME cfg
          ^ "-auth-service --region " ^ AWS_REGION cfg) ;;;
    echo ("  aws logs tail /ecs/" ^ ENVIRONMENT_NAME cfg ^ " --follow") ;;;
    exit 0
  else
    log_error ("The following services failed: "
               ^ join (failed_services a)) ;;;
    log_error ("Check logs with: aws logs tail /ecs/"
               ^ ENVIRONMENT_NAME cfg ^ " --follow") ;;;
    exit 1.

(** Lines 191-206 of [main]. *)
Definition trigger_phase : sh arrays :=
  for_each (SERVICES cfg) trigger_one
    {| failed_services := []; updated_services := [] |}.

(** Lines 214-227 of [main]. *)
Definition wait_phase (a : arrays) : sh arrays :=
  if String.eqb (WAIT_FOR_STABLE cfg) "true" then
    echo EmptyString ;;;
    log_info rule ;;;
    log_info "  Waiting for Deployments to Complete" ;;;
    log_info rule ;;;
    for_each (updated_services a) wait_one a
  else ret a.

(** Lines 229-239 of [main]. *)
Definition audit_phase (a : arrays) : sh arrays :=
  echo EmptyString ;;;
  log_info rule ;;;
  log_info "  Final Health Check" ;;;
  log_info rule ;;;
  for_each (updated_services a) audit_one a.

(** Lines 175-264. *)
Definition main : sh unit :=
  banner ;;;
  check_prerequisites ;;;
  a <- trigger_phase ;;
  if Nat.ltb 0 (List.length (failed_services a)) then
    log_error ("Failed to update services: " ^ join (failed_services a)) ;;;
    exit 1
  else
    a <- wait_phase a ;;
    a <- audit_phase a ;;
    summary a.

End Script.

(** The whole script: configuration, then [main] (line 267). *)
Definition script (getenv : string -> option string) (args : list string)
  (cli : aws_cli) : sh unit :=
  main (configure getenv args) cli.

(** ** Observations on a run *)

(** The exit status of the shell.  [main] always ends in [exit]; were it to
    return, the status would be that of its last command. *)
Definition exit_status (r : sh unit) : nat :=
  match snd r with
  | Exit code => code
  | Done _ => 0
  end.

Definition trace {A : Type} (r : sh A) : list event := fst r.

Fixpoint calls (t : list event) : list aws_call :=
  match t with
  | Call c :: t' => c :: calls t'
  | _ :: t' => calls t'
  | [] => []
  end.

Definition is_wait (c : aws_call) : bool :=
  match c with
  | wait_services_stable _ _ _ => true
  | _ => false
  end.

Definition is_redeploy (c : aws_call) : bool :=
  match c with
  | update_service_force _ _ _ _ _ => true
  | _ => false
  end.

(** The three [describe-services] queries of the audit (lines 138, 153 and
    160). *)
Definition is_audit (c : aws_call) : bool :=
  match c with
  | describe_services _ _ _ q _ =>
      String.eqb q "services[0].runningCount"
      || String.eqb q "services[0].desiredCount"
      || String.eqb q
           "services[0].deployments[*].[id,status,runningCount,desiredCount,rolloutState]"
  | _ => false
  end.

(** The status query of [update_service] (line 76). *)
Definition is_status_query (c : aws_call) : bool :=
  match c with
  | describe_services _ _ _ q _ => String.eqb q "services[0].status"
  | _ => false
  end.

Definition is_per_service (c : aws_call) : bool :=
  match c with
  | describe_clusters _ _ => false
  | _ => true
  end.

Definition wait_calls (r : sh unit) : list aws_call :=
  filter is_wait (calls (trace r)).

Definition audit_calls (r : sh unit) : list aws_call :=
  filter is_audit (calls (trace r)).

(** A function that returned status 0. *)
Definition returns_zero (m : sh nat) : bool :=
  match snd m with
  | Done 0 => true
  | _ => false
  end.

Definition completes {A : Type} (m : sh A) : bool :=
  match snd m with
  | Done _ => true
  | Exit _ => false
  end.

Section Outcomes.

Variable cfg : config.
Variable cli : aws_cli.

Definition prerequisites_met : bool := completes (check_prerequisites cfg cli).

(** The text the status query of [update_service] yields (line 72). *)
Definition service_status (service : string) : string :=
  command_subst (fst (aws cli (status_query cfg service))).

Definition trigger_ok (service : string) : bool :=
  returns_zero (update_service cfg cli service).

Definition wait_ok (service : string) : bool :=
  returns_zero (wait_for_service cfg cli service).

Definition health_ok (service : string) : bool :=
  returns_zero (check_service_health cfg cli service).

Definition status_ok (service : string) : bool :=
  returns_zero (get_deployment_status cfg cli service).

Definition audit_ok (service : string) : bool :=
  health_ok service && status_ok service.

Definition no_arrays : arrays :=
  {| failed_services := []; updated_services := [] |}.

(** What one iteration of each loop of [main] writes. *)
Definition trigger_trace (service : string) : list event :=
  trace (trigger_one cfg cli service no_arrays).

Definition wait_trace (service : string) : list event :=
  trace (wait_one cfg cli service no_arrays).

Definition audit_trace (service : string) : list event :=
  trace (audit_one cfg cli service no_arrays).

(** The status with which the shell ends when the audit of a service
    stops the run. *)
Definition audit_exit (service : string) : nat :=
  if health_ok service then snd (aws cli (deployments_query cfg service)) else 1.

(** The services the second loop adds to [failed_services]. *)
Definition wait_failures (l : list string) : list string :=
  if String.eqb (WAIT_FOR_STABLE cfg) "true"
  then filter (fun s => negb (wait_ok s)) l
  else [].

(** [main] from line 214 on, once the first loop left no failure. *)
Definition conclude (a : arrays) : sh unit :=
  a <- wait_phase cfg cli a ;;
  a <- audit_phase cfg cli a ;;
  summary cfg a.

(** The arrays as the summary finds them when the first loop left them as
    [a]. *)
Definition summary_arrays (a : arrays) : arrays :=
  {| failed_services :=
       failed_services a ++ wait_failures (updated_services a);
     updated_services := updated_services a |}.

(** What a run writes before the first loop. *)
Definition opening : list event :=
  trace (banner cfg) ++ trace (check_prerequisites cfg cli).

(** The header of the audit (lines 230-233). *)
Definition audit_header : list event :=
  [Echo EmptyString; Log INFO rule; Log INFO "  Final Health Check";
   Log INFO rule].

(** The item line of a service in the summary (line 252). *)
Definition item (service : string) : event :=
  Echo ("  • " ^ service ^ "-service").

(** The header of the summary (lines 242-245). *)
Definition summary_head : list event :=
  [Echo EmptyString; Log INFO rule; Log INFO "  Update Summary";
   Log INFO rule].

End Outcomes.

(** ** The summary, read back from the output *)

Fixpoint drop_suffix (suffix s : string) : option string :=
  if String.eqb s suffix then Some EmptyString
  else match s with
       | String c r =>
           match drop_suffix suffix r with
           | Some r' => Some (String c r')
           | None => None
           end
       | EmptyString => None
       end.

Fixpoint drop_prefix (p s : string) : option string :=
  match p, s with
  | EmptyString, _ => Some s
  | String a p', String b s' =>
      if Ascii.eqb a b then drop_prefix p' s' else None
  | String _ _, EmptyString => None
  end.

(** The service named by an item line of the summary (line 252). *)
Definition item_service (e : event) : option string :=
  match e with
  | Echo line =>
      match drop_prefix "  • " line with
      | Some rest => drop_suffix "-service" rest
      | None => None
      end
  | _ => None
  end.

(** The services itemised under ["Updated services:"]. *)
Fixpoint summary_updated (t : list event) : list string :=
  match t with
  | e :: t' =>
      match item_service e with
      | Some s => s :: summary_updated t'
      | None => summary_updated t'
      end
  | [] => []
  end.


(** ** Sample collaborators *)

Definition line (s : string) : string := s ^ String LF EmptyString.

(** A cluster on which every service is active, every command succeeds
    and two tasks of two are running. *)
Definition healthy : aws_cli :=
  {| aws_installed := true;
     aws := fun c =>
       match c with
       | describe_clusters _ _ => (line "{ clusters }", 0)
       | describe_services _ _ _ q _ =>
           if String.eqb q "services[0].status" then (line "ACTIVE", 0)
           else if String.eqb q "services[0].runningCount" then (line "2", 0)
           else if String.eqb q "services[0].desiredCount" then (line "2", 0)
           else (line "| ecs-svc/1 | PRIMARY | 2 | 2 | COMPLETED |", 0)
       | update_service_force _ n _ _ _ => (line n, 0)
       | wait_services_stable _ _ _ => (EmptyString, 0)
       end |}.

Definition aws_call_eqb (c d : aws_call) : bool :=
  match c, d with
  | describe_clusters a1 a2, describe_clusters b1 b2 =>
      String.eqb a1 b1 && String.eqb a2 b2
  | describe_services a1 a2 a3 a4 a5, describe_services b1 b2 b3 b4 b5 =>
      String.eqb a1 b1 && String.eqb a2 b2 && String.eqb a3 b3
      && String.eqb a4 b4 && String.eqb a5 b5
  | update_service_force a1 a2 a3 a4 a5, update_service_force b1 b2 b3 b4 b5 =>
      String.eqb a1 b1 && String.eqb a2 b2 && String.eqb a3 b3
      && String.eqb a4 b4 && String.eqb a5 b5
  | wait_services_stable a1 a2 a3, wait_services_stable b1 b2 b3 =>
      String.eqb a1 b1 && String.eqb a2 b2 && String.eqb a3 b3
  | _, _ => false
  end.

(** [cli], except that the command [c] is answered by [answer]. *)
Definition answering (c : aws_call) (answer : string * nat) (cli : aws_cli)
  : aws_cli :=
  {| aws_installed := aws_installed cli;
     aws := fun d => if aws_call_eqb c d then answer else aws cli d |}.

(** No variable set in the environment. *)
Definition no_env : string -> option string := fun _ => None.

(** The configuration of a run without arguments or environment. *)
Definition fleet : config := configure no_env [].

(** The list of services is fixed by lines 23-27; [main] itself works on
    whatever [SERVICES] holds. *)
Definition with_services (l : list string) (cfg : config) : config :=
  {| AWS_REGION := AWS_REGION cfg;
     ENVIRONMENT_NAME := ENVIRONMENT_NAME cfg;
     CLUSTER_NAME := CLUSTER_NAME cfg;
     WAIT_FOR_STABLE := WAIT_FOR_STABLE cfg;
     SERVICES := l |}.

(** A machine without the [aws] tool. *)
Definition without_tool : aws_cli :=
  {| aws_installed := false; aws := aws healthy |}.

(** The service [auth] alone, on a cluster where its redeployment is
    accepted and it becomes stable, but one task of two is running. *)
Definition one_task_short : aws_cli :=
  answering (running_query fleet "auth") (line "1", 0) healthy.

(** The same run when the query of the running count itself fails. *)
Definition count_unavailable : aws_cli :=
  answering (running_query fleet "auth") (EmptyString, 255) healthy.

(** The same run when only the table of deployments cannot be fetched. *)
Definition table_unavailable : aws_cli :=
  answering (deployments_query fleet "auth") (EmptyString, 254) healthy.

(** The services [auth] and [frontend], where the wait for [frontend]
    fails and everything else goes well. *)
Definition auth_and_frontend : config := with_services ["auth"; "frontend"] fleet.

Definition frontend_times_out : aws_cli :=
  answering (wait_command fleet "frontend") (EmptyString, 255) healthy.

(** The fleet, where [users] is draining and everything else goes well. *)
Definition users_draining : aws_cli :=
  answering (status_query fleet "users") (line "DRAINING", 0) healthy.

(** Whether the summary names [failed] as the failed services (line 260). *)
Definition summary_failed (t : list event) (failed : list string) : Prop :=
  In (Log ERROR ("The following services failed: " ^ join failed)) t.

(** ** Collaborators that answer alike *)

(** The commands [main] can issue under [cfg]. *)
Definition may_issue (cfg : config) (c : aws_call) : Prop :=
  c = describe_clusters (CLUSTER_NAME cfg) (AWS_REGION cfg)
  \/ exists s,
       In s (SERVICES cfg)
       /\ (c = status_query cfg s
           \/ c = redeploy_command cfg s
           \/ (WAIT_FOR_STABLE cfg = "true" /\ c = wait_command cfg s)
           \/ c = running_query cfg s
           \/ c = desired_query cfg s
           \/ c = deployments_query cfg s).

(** Both collaborators have the tool or both lack it, and they answer
    every command [main] can issue in the same way. *)
Definition same_answers (cfg : config) (cli cli' : aws_cli) : Prop :=
  aws_installed cli = aws_installed cli'
  /\ forall c, may_issue cfg c -> aws cli c = aws cli' c.

(** The collaborators agree except, possibly, on [aws ecs wait]. *)
Definition differ_only_in_wait (cli cli' : aws_cli) : Prop :=
  aws_installed cli = aws_installed cli'
  /\ forall c, is_wait c = false -> aws cli c = aws cli' c.

(** A cluster on which no service ever becomes stable. *)
Definition never_stable : aws_cli :=
  {| aws_installed := true;
     aws := fun c =>
       match c with
       | wait_services_stable _ _ _ => (EmptyString, 255)
       | _ => aws healthy c
       end |}.

(** The environment in which [WAIT_FOR_STABLE] alone is set. *)
Definition wait_env (v : string) : string -> option string :=
  fun name => if String.eqb name "WAIT_FOR_STABLE" then Some v else None.

(** [healthy], except for a service that is not part of the fleet. *)
Definition billing_missing : aws_cli :=
  answering (status_query fleet "billing") (line "None", 0) healthy.

(** The fleet, where one task of two of [users] is running. *)
Definition users_short : aws_cli :=
  answering (running_query fleet "users") (line "1", 0) healthy.

(** The fleet, where [users] is draining and the redeployment of [tasks]
    is refused. *)
Definition two_refused : aws_cli :=
  answering (redeploy_command fleet "tasks") (EmptyString, 254) users_draining.

(** * build-and-push.sh

    The script [scripts/build-and-push.sh] builds the Docker image of each
    service and pushes it to the registry.  It has the shape of
    [update-services.sh] and is embedded in the same way, with its own
    collaborators: [docker], two [aws] commands and the file system. *)

Module Build.

(** The external commands of the script, one constructor for each place
    that runs one (lines 62, 77, 78, 111, 135, 136, 139 and 146), so that
    two commands issued at different lines are told apart even when their
    command lines coincide (as they do when [IMAGE_TAG] is [latest]).
    [docker login] reads the password on its standard input. *)
Inductive command : Type :=
| sts_get_caller_identity
| ecr_get_login_password (region : string)
| docker_login (registry password : string)
| docker_build (tag tag_latest dir : string)
| docker_tag_version (source target : string)
| docker_tag_latest (source target : string)
| docker_push_version (image : string)
| docker_push_latest (image : string).

Inductive event : Type :=
| Log (sev : severity) (msg : string)
| Echo (line : string)
| Output (text : string)
| Run (c : command).

(** The machine the script runs on: which tools [command -v] finds, which
    directories and regular files exist, and for each command the text it
    writes on standard output and its exit status. *)
Record host : Type := {
  docker_installed : bool;
  aws_installed : bool;
  is_directory : string -> bool;
  is_file : string -> bool;
  answer : command -> string * nat
}.

Definition sh (A : Type) : Type := (list event * outcome A)%type.

Definition ret {A : Type} (a : A) : sh A := ([], Done a).

Definition bind {A B : Type} (m : sh A) (f : A -> sh B) : sh B :=
  match snd m with
  | Done a => (fst m ++ fst (f a), snd (f a))
  | Exit code => (fst m, Exit code)
  end.

Declare Scope build_scope.
Delimit Scope build_scope with build.

Notation "x <- m ;; k" := (bind m (fun x => k))
  (at level 61, m at next level, right associativity) : build_scope.
Notation "m ;;; k" := (bind m (fun _ => k))
  (at level 61, right associativity) : build_scope.

Local Open Scope build_scope.

Definition emit (e : event) : sh unit := ([e], Done tt).

Definition exit {A : Type} (code : nat) : sh A := ([], Exit code).

(** A command executed where [set -e] (line 7) is honoured: a non-zero
    status ends the shell with that status; otherwise the status, 0, is
    what [$?] holds afterwards. *)
Definition errexit (m : sh nat) : sh nat :=
  rc <- m ;; if Nat.eqb rc 0 then ret rc else exit rc.

Fixpoint for_each {A S : Type} (l : list A) (body : A -> S -> sh S) (s : S)
  : sh S :=
  match l with
  | [] => ret s
  | x :: l' => s' <- body x s ;; for_each l' body s'
  end.

Definition log_info (msg : string) : sh unit := emit (Log INFO msg).
Definition log_warning (msg : string) : sh unit := emit (Log WARNING msg).
Definition log_error (msg : string) : sh unit := emit (Log ERROR msg).
Definition log_step (msg : string) : sh unit := emit (Log STEP msg).
Definition echo (line : string) : sh unit := emit (Echo line).

(** Lines 16-27.  [AWS_ACCOUNT_ID] has no default: it is empty when the
    environment does not set it. *)
Record config : Type := {
  AWS_REGION : string;
  AWS_ACCOUNT_ID : string;
  ENVIRONMENT_NAME : string;
  IMAGE_TAG : string;
  SERVICES : list string
}.

Definition configure (getenv : string -> option string) (args : list string)
  : config :=
  {| AWS_REGION := default_to (getenv "AWS_REGION") "eu-west-1";
     AWS_ACCOUNT_ID :=
       match getenv "AWS_ACCOUNT_ID" with Some v => v | None => EmptyString end;
     ENVIRONMENT_NAME := default_to (getenv "ENVIRONMENT_NAME") "ecs-trial";
     IMAGE_TAG := default_to (getenv "IMAGE_TAG") "latest";
     SERVICES :=
       if String.eqb (arg1 args) EmptyString
       then ["auth"; "users"; "tasks"; "frontend"]
       else [arg1 args] |}.

Section Script.

Variable cfg : config.
Variable h : host.

Definition run (c : command) : sh (string * nat) :=
  ([Run c], Done (answer h c)).

(** Lines 47-71.  The function is a plain command of [main] (line 171), so
    [set -e] is honoured in its body: the assignment of line 62 has the
    status of its command substitution, and a failing [aws sts] ends the
    shell there.  The function may set the global [AWS_ACCOUNT_ID]; its
    value on return is the result. *)
Definition check_prerequisites : sh string :=
  log_step "Checking prerequisites..." ;;;
  if negb (docker_installed h) then
    log_error "Docker is not installed. Please install Docker first." ;;;
    exit 1
  else if negb (aws_installed h) then
    log_error "AWS CLI is not installed. Please install AWS CLI first." ;;;
    exit 1
  else if String.eqb (AWS_ACCOUNT_ID cfg) EmptyString then
    log_warning "AWS_ACCOUNT_ID not set. Attempting to retrieve..." ;;;
    r <- run sts_get_caller_identity ;;
    errexit (ret (snd r)) ;;;
    let account := command_subst (fst r) in
    if String.eqb account EmptyString then
      log_error "Could not determine AWS Account ID. Please set AWS_ACCOUNT_ID environment variable." ;;;
      exit 1
    else
      log_info ("AWS Account ID: " ^ account) ;;;
      log_info "Prerequisites check passed ✓" ;;;
      ret account
  else
    log_info "Prerequisites check passed ✓" ;;;
    ret (AWS_ACCOUNT_ID cfg).

(** ["${AWS_ACCOUNT_ID}.dkr.ecr.${AWS_REGION}.amazonaws.com"] *)
Definition registry (account : string) : string :=
  account ^ ".dkr.ecr." ^ AWS_REGION cfg ^ ".amazonaws.com".

(** Lines 77-79: the status of a pipeline is that of its last command. *)
Definition login_pipeline (account : string) : sh nat :=
  p <- run (ecr_get_login_password (AWS_REGION cfg)) ;;
  d <- run (docker_login (registry account) (fst p)) ;;
  emit (Output (fst d)) ;;;
  ret (snd d).

(** Lines 74-87.  The function is a plain command of [main] (line 174), so
    [set -e] applies to the pipeline. *)
Definition login_to_ecr (account : string) : sh unit :=
  log_step "Logging in to Amazon ECR..." ;;;
  rc <- errexit (login_pipeline account) ;;
  if Nat.eqb rc 0 then
    log_info "Successfully logged in to ECR ✓"
  else
    log_error "Failed to login to ECR" ;;;
    exit 1.

Definition service_dir (service : string) : string := service ^ "-service".

Definition image_name (service : string) : string :=
  ENVIRONMENT_NAME cfg ^ "-" ^ service.

Definition build_command (service : string) : command :=
  docker_build (image_name service ^ ":" ^ IMAGE_TAG cfg)
    (image_name service ^ ":latest") (service_dir service).

(** Lines 90-123.  The only call site is negated in the condition of an
    [if] (line 186), so [set -e] is ignored in the body. *)
Definition build_image (service : string) : sh nat :=
  log_step ("Building Docker image for " ^ service ^ " service...") ;;;
  if negb (is_directory h (service_dir service)) then
    log_error ("Service directory '" ^ service_dir service ^ "' not found") ;;;
    ret 1
  else if negb (is_file h (service_dir service ^ "/Dockerfile")) then
    log_error ("Dockerfile not found in '" ^ service_dir service ^ "'") ;;;
    ret 1
  else
    r <- run (build_command service) ;;
    emit (Output (fst r)) ;;;
    if Nat.eqb (snd r) 0 then
      log_info ("Successfully built " ^ service ^ " image ✓") ;;;
      ret 0
    else
      log_error ("Failed to build " ^ service ^ " image") ;;;
      ret 1.

(** ["${ecr_uri}/${repository}:${tag}"] (lines 128-129). *)
Definition remote_image (account service tag : string) : string :=
  registry account ^ "/" ^ image_name service ^ ":" ^ tag.

(** Lines 126-156.  The only call site is negated in the condition of an
    [if] (line 193), so [set -e] is ignored in the body: the statuses of
    the two [docker tag] commands have no effect. *)
Definition push_image (account service : string) : sh nat :=
  log_step ("Pushing " ^ service ^ " image to ECR...") ;;;
  t <- run (docker_tag_version (image_name service ^ ":" ^ IMAGE_TAG cfg)
              (remote_image account service (IMAGE_TAG cfg))) ;;
  emit (Output (fst t)) ;;;
  t' <- run (docker_tag_latest (image_name service ^ ":latest")
               (remote_image account service "latest")) ;;
  emit (Output (fst t')) ;;;
  p <- run (docker_push_version (remote_image account service (IMAGE_TAG cfg))) ;;
  emit (Output (fst p)) ;;;
  if negb (Nat.eqb (snd p) 0) then
    log_error ("Failed to push " ^ service ^ " image with tag "
               ^ IMAGE_TAG cfg) ;;;
    ret 1
  else
    p' <- run (docker_push_latest (remote_image account service "latest")) ;;
    emit (Output (fst p')) ;;;
    if negb (Nat.eqb (snd p') 0) then
      log_error ("Failed to push " ^ service ^ " image with tag latest") ;;;
      ret 1
    else
      log_info ("Successfully pushed " ^ service ^ " image to ECR ✓") ;;;
      log_info ("Image URI: "
                ^ remote_image account service (IMAGE_TAG cfg)) ;;;
      ret 0.

(** Lines 160-168 of [main]. *)
Definition banner : sh unit :=
  echo EmptyString ;;;
  log_info rule ;;;
  log_info "  Docker Build and Push to ECR" ;;;
  log_info rule ;;;
  log_info ("Environment: " ^ ENVIRONMENT_NAME cfg) ;;;
  log_info ("Region: " ^ AWS_REGION cfg) ;;;
  log_info ("Image Tag: " ^ IMAGE_TAG cfg) ;;;
  log_info ("Services: " ^ join (SERVICES cfg)) ;;;
  echo EmptyString.

(** Lines 179-199 of [main]: the body of the loop, on the local array
    [failed_services]. *)
Definition process_one (account service : string) (failed : list string)
  : sh (list string) :=
  echo EmptyString ;;;
  log_info thin_rule ;;;
  log_info ("Processing " ^ service ^ " service") ;;;
  log_info thin_rule ;;;
  rc <- build_image service ;;
  if negb (Nat.eqb rc 0) then
    log_warning ("Skipping push for " ^ service ^ " due to build failure") ;;;
    ret (failed ++ [service])
  else
    rc' <- push_image account service ;;
    if negb (Nat.eqb rc' 0) then ret (failed ++ [service])
    else
      log_info (service ^ " service completed successfully ✓") ;;;
      ret failed.

(** Lines 201-218 of [main]. *)
Definition summary (account : string) (failed : list string) : sh unit :=
  echo EmptyString ;;;
  log_info rule ;;;
  log_info "  Build and Push Summary" ;;;
  log_info rule ;;;
  if Nat.eqb (List.length failed) 0 then
    log_info "All services built and pushed successfully! ✓" ;;;
    echo EmptyString ;;;
    log_info "Images pushed:" ;;;
    for_each (SERVICES cfg)
      (fun service _ =>
         echo ("  • " ^ remote_image account service (IMAGE_TAG cfg))) tt ;;;
    exit 0
  else
    log_error ("The following services failed: " ^ join failed) ;;;
    exit 1.

(** Lines 159-219. *)
Definition main : sh unit :=
  banner ;;;
  account <- check_prerequisites ;;
  login_to_ecr account ;;;
  failed <- for_each (SERVICES cfg) (process_one account) [] ;;
  summary account failed.

End Script.

(** The whole script (line 222). *)
Definition script (getenv : string -> option string) (args : list string)
  (h : host) : sh unit :=
  main (configure getenv args) h.

Definition exit_status (r : sh unit) : nat :=
  match snd r with
  | Exit code => code
  | Done _ => 0
  end.

Fixpoint commands (t : list event) : list command :=
  match t with
  | Run c :: t' => c :: commands t'
  | _ :: t' => commands t'
  | [] => []
  end.

(** ** Observations on a run of build-and-push.sh *)

Definition returns_zero (m : sh nat) : bool :=
  match snd m with
  | Done 0 => true
  | _ => false
  end.

Definition completes {A : Type} (m : sh A) : bool :=
  match snd m with
  | Done _ => true
  | Exit _ => false
  end.

Definition is_docker (c : command) : bool :=
  match c with
  | sts_get_caller_identity | ecr_get_login_password _ => false
  | _ => true
  end.

Section Outcomes.

Variable cfg : config.
Variable h : host.

Definition prerequisites_met : bool := completes (check_prerequisites cfg h).

(** The account the registry is addressed with: the configured one, or
    else what [aws sts] prints (line 62). *)
Definition account_of : string :=
  if String.eqb (AWS_ACCOUNT_ID cfg) EmptyString
  then command_subst (fst (answer h sts_get_caller_identity))
  else AWS_ACCOUNT_ID cfg.

(** The [docker login] command of line 78, fed with what [aws ecr
    get-login-password] prints. *)
Definition login_command : command :=
  docker_login (registry cfg account_of)
    (fst (answer h (ecr_get_login_password (AWS_REGION cfg)))).

Definition login_ok : bool := Nat.eqb (snd (answer h login_command)) 0.

Definition build_ok (service : string) : bool :=
  returns_zero (build_image cfg h service).

Definition push_ok (service : string) : bool :=
  returns_zero (push_image cfg h account_of service).

Definition service_ok (service : string) : bool :=
  build_ok service && push_ok service.

Definition tag_version_command (service : string) : command :=
  docker_tag_version (image_name cfg service ^ ":" ^ IMAGE_TAG cfg)
    (remote_image cfg account_of service (IMAGE_TAG cfg)).

Definition tag_latest_command (service : string) : command :=
  docker_tag_latest (image_name cfg service ^ ":latest")
    (remote_image cfg account_of service "latest").

Definition push_version_command (service : string) : command :=
  docker_push_version (remote_image cfg account_of service (IMAGE_TAG cfg)).

Definition push_latest_command (service : string) : command :=
  docker_push_latest (remote_image cfg account_of service "latest").

(** Whether [build_image] gets as far as [docker build]. *)
Definition buildable (service : string) : bool :=
  is_directory h (service_dir service)
  && is_file h (service_dir service ^ "/Dockerfile").

(** The commands one iteration of the loop of [main] issues. *)
Definition service_commands (service : string) : list command :=
  if buildable service then
    build_command cfg service
    :: (if Nat.eqb (snd (answer h (build_command cfg service))) 0 then
          tag_version_command service :: tag_latest_command service
          :: push_version_command service
          :: (if Nat.eqb (snd (answer h (push_version_command service))) 0
              then [push_latest_command service] else [])
        else [])
  else [].

(** What one iteration of the loop of [main] writes. *)
Definition service_trace (service : string) : list event :=
  fst (process_one cfg h account_of service []).

(** What a run writes before the loop when the login succeeds. *)
Definition opening : list event :=
  fst (banner cfg) ++ fst (check_prerequisites cfg h)
  ++ fst (login_to_ecr cfg h account_of).

Definition summary_head : list event :=
  [Echo EmptyString; Log INFO rule; Log INFO "  Build and Push Summary";
   Log INFO rule].

(** The item line of a service in the summary (line 212). *)
Definition item (service : string) : event :=
  Echo ("  • " ^ remote_image cfg account_of service (IMAGE_TAG cfg)).

End Outcomes.

(** ** Sample hosts *)

(** A machine with both tools and the four service directories, on which
    every command succeeds. *)
Definition ready : host :=
  {| docker_installed := true;
     aws_installed := true;
     is_directory := fun d =>
       existsb (String.eqb d)
         ["auth-service"; "users-service"; "tasks-service";
          "frontend-service"];
     is_file := fun f =>
       existsb (String.eqb f)
         ["auth-service/Dockerfile"; "users-service/Dockerfile";
          "tasks-service/Dockerfile"; "frontend-service/Dockerfile"];
     answer := fun c =>
       match c with
       | sts_get_caller_identity => (line "123456789012", 0)
       | ecr_get_login_password _ => (line "secret", 0)
       | docker_login _ _ => (line "Login Succeeded", 0)
       | _ => (EmptyString, 0)
       end |}.

Definition command_eqb (c d : command) : bool :=
  match c, d with
  | sts_get_caller_identity, sts_get_caller_identity => true
  | ecr_get_login_password a, ecr_get_login_password b => String.eqb a b
  | docker_login a1 a2, docker_login b1 b2 =>
      String.eqb a1 b1 && String.eqb a2 b2
  | docker_build a1 a2 a3, docker_build b1 b2 b3 =>
      String.eqb a1 b1 && String.eqb a2 b2 && String.eqb a3 b3
  | docker_tag_version a1 a2, docker_tag_version b1 b2 =>
      String.eqb a1 b1 && String.eqb a2 b2
  | docker_tag_latest a1 a2, docker_tag_latest b1 b2 =>
      String.eqb a1 b1 && String.eqb a2 b2
  | docker_push_version a, docker_push_version b => String.eqb a b
  | docker_push_latest a, docker_push_latest b => String.eqb a b
  | _, _ => false
  end.

(** [h], except that the command [c] is answered by [a]. *)
Definition answering (c : command) (a : string * nat) (h : host) : host :=
  {| docker_installed := docker_installed h;
     aws_installed := aws_installed h;
     is_directory := is_directory h;
     is_file := is_file h;
     answer := fun d => if command_eqb c d then a else answer h d |}.

(** [ready] without the directory of [tasks]. *)
Definition tasks_missing : host :=
  {| docker_installed := true;
     aws_installed := true;
     is_directory := fun d =>
       negb (String.eqb d "tasks-service") && is_directory ready d;
     is_file := is_file ready;
     answer := answer ready |}.

(** The configuration of a run without arguments or environment. *)
Definition fleet : config := configure no_env [].

End Build.

(** * The tasks service

    The request handlers of the tasks service (an Express application)
    keep the tasks in one text file: every task is appended as its JSON
    text followed by the separator [TASK_SPLIT], and the list is read
    back by splitting the file at the separator.  The handlers are
    embedded as functions of the file system; the JavaScript built-ins
    they use are [split] below and the [runtime] interface. *)

Module Tasks.

(** [String.prototype.split] with a non-empty separator: the text is cut
    at every occurrence of the separator, found from left to right, the
    search resuming after each occurrence; [current] is the piece being
    read and [skip] the number of characters of an occurrence still to be
    passed. *)
Fixpoint split_from (sep s current : string) (skip : nat) : list string :=
  match s with
  | EmptyString => [current]
  | String c r =>
      match skip with
      | S k => split_from sep r current k
      | 0 =>
          if String.prefix sep s
          then current
               :: split_from sep r EmptyString (String.length sep - 1)
          else split_from sep r (current ^ String c EmptyString) 0
      end
  end.

Definition split (sep s : string) : list string :=
  split_from sep s EmptyString 0.

Definition TASK_SPLIT : string := "TASK_SPLIT".

(** The part of JavaScript the handlers rely on: the values, the text
    [JSON.stringify] gives for a value, what [JSON.parse] makes of a text
    ([None] when it throws), and the object [{ title, text }] built from
    two properties of the request body, each possibly undefined. *)
Record runtime : Type := {
  value : Type;
  stringify : value -> string;
  parse : string -> option value;
  task_object : option value -> option value -> value
}.

(** The disk: the content of the tasks file, if it exists, and whether
    reading and appending succeed. *)
Record disk : Type := {
  file : option string;
  readable : bool;
  writable : bool
}.

(** [fs.readFile]: the content, or an error. *)
Definition readFile (d : disk) : option string :=
  if readable d then file d else None.

(** [fs.appendFile]: the disk afterwards, or an error; the file is
    created when it does not exist. *)
Definition appendFile (d : disk) (text : string) : option disk :=
  if writable d then
    Some {| file := Some (match file d with
                          | Some content => content ^ text
                          | None => text
                          end);
            readable := readable d;
            writable := writable d |}
  else None.

Section Handlers.

Variable js : runtime.

(** What a handler answers: a status with a message, with the tasks or
    with the created task; or nothing, when an exception escapes the
    callback of the file operation. *)
Inductive reply : Type :=
| Message (status : nat) (message : string)
| Loaded (status : nat) (message : string) (tasks : list (value js))
| Stored (status : nat) (message : string) (createdTask : value js)
| Uncaught.

(** Lines 31-38: the promise resolves with a fixed user, whatever the
    headers ([inl]); it never rejects ([inr], with the message of the
    error). *)
Definition extractAndVerifyToken (authorization : option string)
  : string + string :=
  inl "debug-usersss".

(** [entries.map((json) => JSON.parse(json))] (line 63): the values, or
    [None] when one of the calls throws. *)
Fixpoint parse_all (entries : list string) : option (list (value js)) :=
  match entries with
  | [] => Some []
  | e :: entries' =>
      match parse js e with
      | Some v =>
          match parse_all entries' with
          | Some vs => Some (v :: vs)
          | None => None
          end
      | None => None
      end
  end.

(** Lines 49-75: [GET /tasks]. *)
Definition get_tasks (authorization : option string) (d : disk) : reply :=
  match extractAndVerifyToken authorization with
  | inl uid =>
      match readFile d with
      | None => Message 500 "Loading the tasks failed. Chai!!!"
      | Some strData =>
          let entries := removelast (split TASK_SPLIT strData) in
          match parse_all entries with
          | Some tasks =>
              Loaded 200 "Tasks loaded. I too good. No be lie my brotherrr"
                tasks
          | None => Uncaught
          end
      end
  | inr message =>
      Message 401
        (if String.eqb message EmptyString then "Failed to load tasks."
         else message)
  end.

(** Lines 77-101: [POST /tasks], with the [title] and [text] properties
    of the request body.  The result is the reply and the disk
    afterwards. *)
Definition post_task (authorization : option string)
  (title text : option (value js)) (d : disk) : reply * disk :=
  match extractAndVerifyToken authorization with
  | inl uid =>
      let task := task_object js title text in
      let jsonTask := stringify js task in
      match appendFile d (jsonTask ^ TASK_SPLIT) with
      | None => (Message 500 "Storing the task failed. As howww.", d)
      | Some d' => (Stored 201 "Task stored. Crazyyy and maddddd." task, d')
      end
  | inr message => (Message 401 "Could not verify token.", d)
  end.

(** One [POST /tasks] request: the authorization header and the two
    properties of the body. *)
Definition request : Type :=
  (option string * option (value js) * option (value js))%type.

Definition task_of (r : request) : value js :=
  task_object js (snd (fst r)) (snd r).

(** The disk after a sequence of [POST /tasks] requests. *)
Fixpoint post_all (rs : list request) (d : disk) : disk :=
  match rs with
  | [] => d
  | (authorization, title, text) :: rs' =>
      post_all rs' (snd (post_task authorization title text d))
  end.

(** The separator does not start inside [e] when [e] is followed by the
    separator. *)
Fixpoint separator_free (e : string) : bool :=
  match e with
  | EmptyString => true
  | String _ e' =>
      negb (String.prefix TASK_SPLIT (e ^ TASK_SPLIT)) && separator_free e'
  end.

(** The separator occurs nowhere in [s]. *)
Fixpoint no_separator (s : string) : bool :=
  match s with
  | EmptyString => true
  | String _ s' => negb (String.prefix TASK_SPLIT s) && no_separator s'
  end.

(** The text of a file holding the values [l]. *)
Fixpoint framed (l : list (value js)) : string :=
  match l with
  | [] => EmptyString
  | v :: l' => stringify js v ^ TASK_SPLIT ^ framed l'
  end.

(** A value that survives being written and read back. *)
Definition storable (v : value js) : Prop :=
  parse js (stringify js v) = Some v
  /\ separator_free (stringify js v) = true.

End Handlers.

(** A runtime for the witnesses: the two tasks [{}] (no property given)
    and [{ title: null, text: null }], with the texts [JSON.stringify]
    gives for them. *)
Definition null_task_text : string :=
  "{" ^ dquote ^ "title" ^ dquote ^ ":null," ^ dquote ^ "text" ^ dquote
  ^ ":null}".

Definition two_tasks : runtime :=
  {| value := bool;
     stringify := fun v => if v then null_task_text else "{}";
     parse := fun s =>
       if String.eqb s "{}" then Some false
       else if String.eqb s null_task_text then Some true
       else None;
     task_object := fun title text =>
       match title, text with
       | None, None => false
       | _, _ => true
       end |}.

(** A fragment of JSON, for the witnesses that need the text of a
    string: the values are the strings whose characters need no escape
    and the task objects whose properties, when present, are such
    strings.  [plain_stringify] gives the text [JSON.stringify] gives for
    them, and [plain_parse] reads exactly these texts. *)
Inductive plain_value : Type :=
| Text (s : string)
| Object (title text : option string).

Definition quoted (s : string) : string := dquote ^ s ^ dquote.

Definition plain_stringify (v : plain_value) : string :=
  match v with
  | Text s => quoted s
  | Object None None => "{}"
  | Object (Some t) None => "{" ^ quoted "title" ^ ":" ^ quoted t ^ "}"
  | Object None (Some x) => "{" ^ quoted "text" ^ ":" ^ quoted x ^ "}"
  | Object (Some t) (Some x) =>
      "{" ^ quoted "title" ^ ":" ^ quoted t ^ ","
      ^ quoted "text" ^ ":" ^ quoted x ^ "}"
  end.

(** A character that stands for itself inside a JSON string: not a
    control character, a double quote or a backslash. *)
Definition plain_char (c : ascii) : bool :=
  let n := nat_of_ascii c in
  ((32 <=? n) && negb (n =? 34) && negb (n =? 92))%nat.

(** The plain characters up to the closing quote, and what follows it. *)
Fixpoint read_string (s : string) : option (string * string) :=
  match s with
  | EmptyString => None
  | String c r =>
      if Ascii.eqb c (ascii_of_nat 34) then Some (EmptyString, r)
      else if plain_char c then
        match read_string r with
        | Some (t, rest) => Some (String c t, rest)
        | None => None
        end
      else None
  end.

Definition read_quoted (s : string) : option (string * string) :=
  match drop_prefix dquote s with
  | Some r => read_string r
  | None => None
  end.

Definition read_property (name s : string) : option (string * string) :=
  match drop_prefix (quoted name ^ ":") s with
  | Some r => read_quoted r
  | None => None
  end.

Definition plain_parse (s : string) : option plain_value :=
  match read_quoted s with
  | Some (t, EmptyString) => Some (Text t)
  | Some _ => None
  | None =>
      match drop_prefix "{" s with
      | None => None
      | Some r =>
          if String.eqb r "}" then Some (Object None None)
          else
            match read_property "title" r with
            | Some (t, r1) =>
                if String.eqb r1 "}" then Some (Object (Some t) None)
                else
                  match drop_prefix "," r1 with
                  | Some r2 =>
                      match read_property "text" r2 with
                      | Some (x, r3) =>
                          if String.eqb r3 "}"
                          then Some (Object (Some t) (Some x)) else None
                      | None => None
                      end
                  | None => None
                  end
            | None =>
                match read_property "text" r with
                | Some (x, r1) =>
                    if String.eqb r1 "}" then Some (Object None (Some x))
                    else None
                | None => None
                end
            end
      end
  end.

(** The string a property of the request body holds, if it is one. *)
Definition text_of (property : option plain_value) : option string :=
  match property with
  | Some (Text s) => Some s
  | _ => None
  end.

Definition plain_json : runtime :=
  {| value := plain_value;
     stringify := plain_stringify;
     parse := plain_parse;
     task_object := fun title text => Object (text_of title) (text_of text) |}.

(** The text of the tasks file, empty when the file does not exist. *)
Definition content (d : disk) : string :=
  match file d with
  | Some text => text
  | None => EmptyString
  end.

(** A disk on which the tasks file does not exist yet. *)
Definition fresh : disk :=
  {| file := None; readable := true; writable := true |}.

End Tasks.

(** * Properties *)

(** ** The monad and the observations *)

Lemma bind_done {A B : Type} (m : sh A) (f : A -> sh B) (a : A) :
  snd m = Done a -> bind m f = (fst m ++ fst (f a), snd (f a)).
Proof. intros H. unfold bind. now rewrite H. Qed.

Lemma bind_exit {A B : Type} (m : sh A) (f : A -> sh B) (code : nat) :
  snd m = Exit code -> bind m f = (fst m, Exit code).
Proof. intros H. unfold bind. now rewrite H. Qed.

Lemma calls_app (t u : list event) : calls (t ++ u) = calls t ++ calls u.
Proof.
  induction t as [|e t IH]; [reflexivity|].
  destruct e; simpl; now rewrite IH.
Qed.

Lemma summary_updated_app (t u : list event) :
  summary_updated (t ++ u) = summary_updated t ++ summary_updated u.
Proof.
  induction t as [|e t IH]; [reflexivity|].
  simpl. destruct (item_service e); simpl; now rewrite IH.
Qed.

Section Functions.

Variable cfg : config.
Variable cli : aws_cli.

Lemma update_service_returns (s : string) :
  snd (update_service cfg cli s)
  = Done (if trigger_ok cfg cli s then 0 else 1).
Proof.
  unfold trigger_ok, returns_zero, update_service, bind. cbn.
  destruct (String.eqb _ "ACTIVE"); cbn; [|reflexivity].
  destruct (Nat.eqb _ 0); reflexivity.
Qed.

Lemma wait_for_service_returns (s : string) :
  snd (wait_for_service cfg cli s) = Done (if wait_ok cfg cli s then 0 else 1).
Proof.
  unfold wait_ok, returns_zero, wait_for_service, bind. cbn.
  destruct (Nat.eqb _ 0); reflexivity.
Qed.

Lemma check_service_health_returns (s : string) :
  snd (check_service_health cfg cli s)
  = Done (if health_ok cfg cli s then 0 else 1).
Proof.
  unfold health_ok, returns_zero, check_service_health, bind. cbn.
  destruct (Nat.eqb _ 0); reflexivity.
Qed.

Lemma get_deployment_status_outcome (s : string) :
  snd (get_deployment_status cfg cli s)
  = if status_ok cfg cli s then Done 0
    else Exit (snd (aws cli (deployments_query cfg s))).
Proof.
  unfold status_ok, returns_zero, get_deployment_status, errexit, bind. cbn.
  destruct (Nat.eqb _ 0); reflexivity.
Qed.

Lemma status_ok_iff (s : string) :
  status_ok cfg cli s = Nat.eqb (snd (aws cli (deployments_query cfg s))) 0.
Proof.
  unfold status_ok, returns_zero, get_deployment_status, errexit, bind. cbn.
  destruct (Nat.eqb _ 0); reflexivity.
Qed.

Lemma trigger_ok_iff (s : string) :
  trigger_ok cfg cli s
  = String.eqb (service_status cfg cli s) "ACTIVE"
    && Nat.eqb (snd (aws cli (redeploy_command cfg s))) 0.
Proof.
  unfold trigger_ok, returns_zero, update_service, service_status, bind. cbn.
  destruct (String.eqb _ "ACTIVE"); cbn; [|reflexivity].
  destruct (Nat.eqb _ 0); reflexivity.
Qed.

Lemma wait_ok_iff (s : string) :
  wait_ok cfg cli s = Nat.eqb (snd (aws cli (wait_command cfg s))) 0.
Proof.
  unfold wait_ok, returns_zero, wait_for_service, bind. cbn.
  destruct (Nat.eqb _ 0); reflexivity.
Qed.

(** One iteration of the first loop: the service joins one of the arrays. *)
Lemma trigger_one_eq (s : string) (a : arrays) :
  trigger_one cfg cli s a
  = (trigger_trace cfg cli s,
     Done (if trigger_ok cfg cli s
           then {| failed_services := failed_services a;
                   updated_services := updated_services a ++ [s] |}
           else {| failed_services := failed_services a ++ [s];
                   updated_services := updated_services a |})).
Proof.
  unfold trigger_trace, trace, trigger_one, bind.
  cbn [emit echo log_info fst snd].
  rewrite update_service_returns.
  destruct (trigger_ok cfg cli s); reflexivity.
Qed.

(** One iteration of the second loop: a failed wait is recorded, nothing
    else changes. *)
Lemma wait_one_eq (s : string) (a : arrays) :
  wait_one cfg cli s a
  = (wait_trace cfg cli s,
     Done (if wait_ok cfg cli s then a
           else {| failed_services := failed_services a ++ [s];
                   updated_services := updated_services a |})).
Proof.
  unfold wait_trace, trace, wait_one, bind.
  cbn [emit echo fst snd].
  rewrite wait_for_service_returns.
  destruct (wait_ok cfg cli s); reflexivity.
Qed.

(** One iteration of the third loop: it goes on only when both calls
    returned 0. *)
Lemma audit_one_eq (s : string) (a : arrays) :
  audit_one cfg cli s a
  = (audit_trace cfg cli s,
     if audit_ok cfg cli s then Done a else Exit (audit_exit cfg cli s)).
Proof.
  unfold audit_trace, audit_exit, audit_ok, trace, audit_one, errexit, bind.
  cbn [emit echo fst snd].
  rewrite check_service_health_returns.
  destruct (health_ok cfg cli s); cbn [Nat.eqb ret exit fst snd andb]; [|reflexivity].
  rewrite get_deployment_status_outcome.
  destruct (status_ok cfg cli s); reflexivity.
Qed.

Lemma audit_exit_nonzero (s : string) :
  audit_ok cfg cli s = false -> audit_exit cfg cli s <> 0.
Proof.
  unfold audit_ok, audit_exit. rewrite status_ok_iff.
  destruct (health_ok cfg cli s); cbn; [|discriminate].
  intros H. now apply Nat.eqb_neq.
Qed.

(** *** The three loops *)

Lemma trigger_loop (l : list string) (a : arrays) :
  for_each l (trigger_one cfg cli) a
  = (flat_map (trigger_trace cfg cli) l,
     Done {| failed_services :=
               failed_services a
               ++ filter (fun s => negb (trigger_ok cfg cli s)) l;
             updated_services :=
               updated_services a ++ filter (trigger_ok cfg cli) l |}).
Proof.
  revert a. induction l as [|s l IH]; intros a.
  - cbn. rewrite !app_nil_r. now destruct a.
  - cbn [for_each flat_map filter]. rewrite trigger_one_eq.
    unfold bind. cbn [fst snd]. rewrite IH.
    destruct (trigger_ok cfg cli s); cbn [fst snd negb failed_services
      updated_services]; now rewrite <- ?app_assoc.
Qed.

Lemma wait_loop (l : list string) (a : arrays) :
  for_each l (wait_one cfg cli) a
  = (flat_map (wait_trace cfg cli) l,
     Done {| failed_services :=
               failed_services a
               ++ filter (fun s => negb (wait_ok cfg cli s)) l;
             updated_services := updated_services a |}).
Proof.
  revert a. induction l as [|s l IH]; intros a.
  - cbn. rewrite app_nil_r. now destruct a.
  - cbn [for_each flat_map filter]. rewrite wait_one_eq.
    unfold bind. cbn [fst snd]. rewrite IH.
    destruct (wait_ok cfg cli s); cbn [fst snd negb failed_services
      updated_services]; now rewrite <- ?app_assoc.
Qed.

Lemma audit_loop (l : list string) (a : arrays) :
  forallb (audit_ok cfg cli) l = true ->
  for_each l (audit_one cfg cli) a
  = (flat_map (audit_trace cfg cli) l, Done a).
Proof.
  induction l as [|s l IH]; [reflexivity|].
  cbn [forallb for_each flat_map]. intros H.
  apply andb_true_iff in H as [Hs Hl].
  rewrite audit_one_eq, Hs. unfold bind. cbn [fst snd].
  now rewrite (IH Hl).
Qed.

(** When the audit of some service fails the loop ends the shell there,
    with a non-zero status. *)
Lemma audit_loop_stops (l : list string) (a : arrays) :
  forallb (audit_ok cfg cli) l = false ->
  exists l1 s l2,
    l = l1 ++ s :: l2 /\
    forallb (audit_ok cfg cli) l1 = true /\
    audit_ok cfg cli s = false /\
    for_each l (audit_one cfg cli) a
    = (flat_map (audit_trace cfg cli) (l1 ++ [s]), Exit (audit_exit cfg cli s)).
Proof.
  induction l as [|s l IH]; [discriminate|].
  cbn [forallb]. intros H.
  destruct (audit_ok cfg cli s) eqn:Hs.
  - cbn in H. destruct (IH H) as (l1 & s' & l2 & -> & H1 & H2 & H3).
    exists (s :: l1), s', l2. repeat split; trivial.
    + cbn. now rewrite Hs.
    + cbn [for_each]. rewrite audit_one_eq, Hs. unfold bind.
      cbn [fst snd]. now rewrite H3.
  - exists [], s, l. repeat split; trivial.
    cbn [for_each]. rewrite audit_one_eq, Hs. unfold bind.
    cbn. now rewrite app_nil_r.
Qed.
(** *** The calls each iteration makes *)

Lemma calls_trigger_trace (s : string) :
  calls (trigger_trace cfg cli s)
  = status_query cfg s
    :: (if String.eqb (service_status cfg cli s) "ACTIVE"
        then [redeploy_command cfg s] else []).
Proof.
  unfold trigger_trace, trace, trigger_one, update_service, service_status,
    bind. cbn.
  destruct (String.eqb _ "ACTIVE"); cbn; [|reflexivity].
  destruct (Nat.eqb _ 0); reflexivity.
Qed.

Lemma calls_wait_trace (s : string) :
  calls (wait_trace cfg cli s) = [wait_command cfg s].
Proof.
  unfold wait_trace, trace, wait_one, wait_for_service, bind. cbn.
  destruct (Nat.eqb _ 0); reflexivity.
Qed.

Lemma calls_audit_trace (s : string) :
  calls (audit_trace cfg cli s)
  = running_query cfg s :: desired_query cfg s
    :: (if health_ok cfg cli s then [deployments_query cfg s] else []).
Proof.
  unfold audit_trace, trace, audit_one, health_ok, returns_zero, errexit,
    check_service_health, get_deployment_status, errexit, bind. cbn.
  destruct (Nat.eqb (test_eq _ _) 0); cbn; [|reflexivity].
  destruct (Nat.eqb _ 0); reflexivity.
Qed.

Lemma calls_flat_map (f : string -> list event) (l : list string) :
  calls (flat_map f l) = flat_map (fun s => calls (f s)) l.
Proof.
  induction l as [|s l IH]; [reflexivity|].
  cbn. now rewrite calls_app, IH.
Qed.

(** *** The phases of [main] *)

Lemma wait_phase_outcome (a : arrays) :
  snd (wait_phase cfg cli a) = Done (summary_arrays cfg cli a).
Proof.
  unfold wait_phase, summary_arrays, wait_failures.
  destruct (String.eqb (WAIT_FOR_STABLE cfg) "true").
  - unfold bind. cbn [echo log_info emit fst snd]. now rewrite wait_loop.
  - cbn. rewrite app_nil_r. now destruct a.
Qed.

Lemma wait_phase_calls (a : arrays) :
  calls (trace (wait_phase cfg cli a))
  = if String.eqb (WAIT_FOR_STABLE cfg) "true"
    then map (wait_command cfg) (updated_services a)
    else [].
Proof.
  unfold wait_phase, trace.
  destruct (String.eqb (WAIT_FOR_STABLE cfg) "true"); [|reflexivity].
  unfold bind. cbn [echo log_info emit fst snd]. rewrite wait_loop.
  cbn [fst app calls].
  induction (updated_services a) as [|s l IH]; [reflexivity|].
  cbn [flat_map map]. now rewrite calls_app, IH, calls_wait_trace.
Qed.

Lemma check_prerequisites_outcome :
  snd (check_prerequisites cfg cli)
  = if prerequisites_met cfg cli then Done tt else Exit 1.
Proof.
  unfold prerequisites_met, completes, check_prerequisites, bind. cbn.
  destruct (aws_installed cli); cbn; [|reflexivity].
  destruct (Nat.eqb _ 0); reflexivity.
Qed.

Lemma banner_outcome : snd (banner cfg) = Done tt.
Proof. reflexivity. Qed.

Lemma trigger_phase_eq :
  trigger_phase cfg cli
  = (flat_map (trigger_trace cfg cli) (SERVICES cfg),
     Done {| failed_services :=
               filter (fun s => negb (trigger_ok cfg cli s)) (SERVICES cfg);
             updated_services := filter (trigger_ok cfg cli) (SERVICES cfg) |}).
Proof. unfold trigger_phase. now rewrite trigger_loop. Qed.

(** Unmet prerequisites: the run is the banner and the check. *)
Lemma main_unmet :
  prerequisites_met cfg cli = false ->
  main cfg cli = (opening cfg cli, Exit 1).
Proof.
  intros H. unfold main, opening, trace.
  rewrite (bind_done _ _ tt banner_outcome).
  rewrite (bind_exit (check_prerequisites cfg cli) _ 1).
  - reflexivity.
  - now rewrite check_prerequisites_outcome, H.
Qed.

Lemma main_met :
  prerequisites_met cfg cli = true ->
  main cfg cli
  = let a := {| failed_services :=
                  filter (fun s => negb (trigger_ok cfg cli s)) (SERVICES cfg);
                updated_services :=
                  filter (trigger_ok cfg cli) (SERVICES cfg) |} in
    let rest :=
      if Nat.ltb 0 (List.length (failed_services a)) then
        log_error ("Failed to update services: " ^ join (failed_services a)) ;;;
        exit 1
      else conclude cfg cli a in
    (opening cfg cli ++ flat_map (trigger_trace cfg cli) (SERVICES cfg) ++ fst rest,
     snd rest).
Proof.
  intros H. unfold main, opening, trace.
  rewrite (bind_done _ _ tt banner_outcome).
  rewrite (bind_done (check_prerequisites cfg cli) _ tt)
    by now rewrite check_prerequisites_outcome, H.
  rewrite trigger_phase_eq.
  unfold bind at 1. cbn [fst snd]. cbv zeta.
  now rewrite <- !app_assoc.
Qed.

Lemma audit_phase_clean (a : arrays) :
  forallb (audit_ok cfg cli) (updated_services a) = true ->
  audit_phase cfg cli a
  = (audit_header ++ flat_map (audit_trace cfg cli) (updated_services a),
     Done a).
Proof.
  intros H. unfold audit_phase, bind. cbn [echo log_info emit fst snd].
  now rewrite (audit_loop _ _ H).
Qed.

Lemma audit_phase_stops (a : arrays) :
  forallb (audit_ok cfg cli) (updated_services a) = false ->
  exists l1 s l2,
    updated_services a = l1 ++ s :: l2 /\
    forallb (audit_ok cfg cli) l1 = true /\
    audit_ok cfg cli s = false /\
    audit_phase cfg cli a
    = (audit_header ++ flat_map (audit_trace cfg cli) (l1 ++ [s]),
       Exit (audit_exit cfg cli s)).
Proof.
  intros H.
  destruct (audit_loop_stops _ a H) as (l1 & s & l2 & E & H1 & H2 & H3).
  exists l1, s, l2. repeat split; trivial.
  unfold audit_phase, bind. cbn [echo log_info emit fst snd].
  now rewrite H3.
Qed.

(** *** The summary *)

Lemma items_loop (l : list string) :
  for_each l (fun service _ => echo ("  • " ^ service ^ "-service")) tt
  = (map item l, Done tt).
Proof.
  induction l as [|s l IH]; [reflexivity|].
  cbn [for_each map]. unfold bind. cbn [echo emit fst snd].
  now rewrite IH.
Qed.

Lemma summary_success (a : arrays) :
  failed_services a = [] ->
  summary cfg a
  = (summary_head
     ++ [Log INFO "All services updated successfully! ✓"; Echo EmptyString;
         Log INFO "Updated services:"]
     ++ map item (updated_services a)
     ++ [Echo EmptyString; Log INFO "Monitor your deployment:";
         Echo ("  aws ecs describe-services --cluster " ^ CLUSTER_NAME cfg
               ^ " --services " ^ ENVIRONMENT_NAME cfg
               ^ "-auth-service --region " ^ AWS_REGION cfg);
         Echo ("  aws logs tail /ecs/" ^ ENVIRONMENT_NAME cfg ^ " --follow")],
     Exit 0).
Proof.
  intros H. unfold summary. rewrite H. cbn [List.length Nat.eqb].
  unfold bind. cbn [echo log_info emit exit fst snd].
  rewrite items_loop. reflexivity.
Qed.

Lemma summary_failure (a : arrays) :
  failed_services a <> [] ->
  summary cfg a
  = (summary_head
     ++ [Log ERROR ("The following services failed: "
                    ^ join (failed_services a));
         Log ERROR ("Check logs with: aws logs tail /ecs/"
                    ^ ENVIRONMENT_NAME cfg ^ " --follow")],
     Exit 1).
Proof.
  intros H. unfold summary.
  destruct (failed_services a) as [|s l] eqn:E; [contradiction|].
  reflexivity.
Qed.

Lemma conclude_clean (a : arrays) :
  forallb (audit_ok cfg cli) (updated_services a) = true ->
  conclude cfg cli a
  = (trace (wait_phase cfg cli a) ++ audit_header
     ++ flat_map (audit_trace cfg cli) (updated_services a)
     ++ trace (summary cfg (summary_arrays cfg cli a)),
     snd (summary cfg (summary_arrays cfg cli a))).
Proof.
  intros H. unfold conclude, trace.
  rewrite (bind_done _ _ _ (wait_phase_outcome a)).
  rewrite (audit_phase_clean (summary_arrays cfg cli a)) by exact H.
  unfold bind. cbn [fst snd updated_services summary_arrays].
  now rewrite <- !app_assoc.
Qed.

Lemma conclude_stops (a : arrays) :
  forallb (audit_ok cfg cli) (updated_services a) = false ->
  exists l1 s l2,
    updated_services a = l1 ++ s :: l2 /\
    forallb (audit_ok cfg cli) l1 = true /\
    audit_ok cfg cli s = false /\
    conclude cfg cli a
    = (trace (wait_phase cfg cli a) ++ audit_header
       ++ flat_map (audit_trace cfg cli) (l1 ++ [s]),
       Exit (audit_exit cfg cli s)).
Proof.
  intros H.
  destruct (audit_phase_stops (summary_arrays cfg cli a) H)
    as (l1 & s & l2 & E & H1 & H2 & H3).
  exists l1, s, l2. repeat split; trivial.
  unfold conclude, trace.
  rewrite (bind_done _ _ _ (wait_phase_outcome a)), H3.
  reflexivity.
Qed.

(** *** Reading the summary back *)

Lemma length_append (s u : string) :
  String.length (s ^ u) = String.length s + String.length u.
Proof. induction s as [|c s IH]; cbn; [reflexivity | now rewrite IH]. Qed.

Lemma drop_suffix_unfold (suffix s : string) :
  drop_suffix suffix s
  = if String.eqb s suffix then Some EmptyString
    else match s with
         | String c r =>
             match drop_suffix suffix r with
             | Some r' => Some (String c r')
             | None => None
             end
         | EmptyString => None
         end.
Proof. destruct s; reflexivity. Qed.

Lemma drop_suffix_append (suffix s : string) :
  drop_suffix suffix (s ^ suffix) = Some s.
Proof.
  induction s as [|c s IH]; rewrite drop_suffix_unfold.
  - cbn. now rewrite String.eqb_refl.
  - replace (String.eqb (String c s ^ suffix) suffix) with false.
    + cbn. now rewrite IH.
    + symmetry. apply String.eqb_neq. intros E.
      apply (f_equal String.length) in E.
      rewrite length_append in E. cbn in E. lia.
Qed.

Lemma item_service_item (s : string) : item_service (item s) = Some s.
Proof.
  unfold item, item_service. cbn. apply drop_suffix_append.
Qed.

Lemma summary_updated_items (l : list string) :
  summary_updated (map item l) = l.
Proof.
  induction l as [|s l IH]; [reflexivity|].
  cbn [map summary_updated]. now rewrite item_service_item, IH.
Qed.

Lemma summary_updated_flat_map (f : string -> list event) (l : list string) :
  (forall s, summary_updated (f s) = []) ->
  summary_updated (flat_map f l) = [].
Proof.
  intros H. induction l as [|s l IH]; [reflexivity|].
  cbn. now rewrite summary_updated_app, H, IH.
Qed.

Lemma summary_updated_opening : summary_updated (opening cfg cli) = [].
Proof.
  unfold opening, trace, check_prerequisites, bind. cbn.
  destruct (aws_installed cli); cbn; [|reflexivity].
  destruct (Nat.eqb _ 0); reflexivity.
Qed.

Lemma summary_updated_trigger_trace (s : string) :
  summary_updated (trigger_trace cfg cli s) = [].
Proof.
  unfold trigger_trace, trace, trigger_one, update_service, bind. cbn.
  destruct (String.eqb _ "ACTIVE"); cbn; [|reflexivity].
  destruct (Nat.eqb _ 0); reflexivity.
Qed.

Lemma summary_updated_wait_trace (s : string) :
  summary_updated (wait_trace cfg cli s) = [].
Proof.
  unfold wait_trace, trace, wait_one, wait_for_service, bind. cbn.
  destruct (Nat.eqb _ 0); reflexivity.
Qed.

Lemma summary_updated_audit_trace (s : string) :
  summary_updated (audit_trace cfg cli s) = [].
Proof.
  unfold audit_trace, trace, audit_one, errexit, check_service_health,
    get_deployment_status, errexit, bind. cbn.
  destruct (Nat.eqb (test_eq _ _) 0); cbn; [|reflexivity].
  destruct (Nat.eqb _ 0); reflexivity.
Qed.

Lemma summary_updated_wait_phase (a : arrays) :
  summary_updated (trace (wait_phase cfg cli a)) = [].
Proof.
  unfold wait_phase, trace.
  destruct (String.eqb (WAIT_FOR_STABLE cfg) "true"); [|reflexivity].
  unfold bind. cbn [echo log_info emit fst snd]. rewrite wait_loop.
  cbn. apply summary_updated_flat_map, summary_updated_wait_trace.
Qed.

(** *** Lists of services *)

Lemma filter_all (f : string -> bool) (l : list string) :
  forallb f l = true -> filter f l = l.
Proof.
  induction l as [|s l IH]; [reflexivity|]. cbn. intros H.
  apply andb_true_iff in H as [-> H]. now rewrite (IH H).
Qed.

Lemma filter_none (f : string -> bool) (l : list string) :
  forallb f l = true -> filter (fun s => negb (f s)) l = [].
Proof.
  induction l as [|s l IH]; [reflexivity|]. cbn. intros H.
  apply andb_true_iff in H as [-> H]. now rewrite (IH H).
Qed.

Lemma filter_some (f : string -> bool) (l : list string) :
  forallb f l = false -> filter (fun s => negb (f s)) l <> [].
Proof.
  induction l as [|s l IH]; [discriminate|]. cbn.
  destruct (f s); cbn; [exact IH | discriminate].
Qed.

Lemma forallb_false_iff (f : string -> bool) (l : list string) :
  forallb f l = false <-> exists s, In s l /\ f s = false.
Proof.
  split.
  - induction l as [|s l IH]; [discriminate|]. cbn.
    destruct (f s) eqn:E; cbn.
    + intros H. destruct (IH H) as (s' & Hin & Hs'). eauto.
    + eauto.
  - intros (s & Hin & Hs). destruct (forallb f l) eqn:E; [|reflexivity].
    rewrite forallb_forall in E. rewrite (E s Hin) in Hs. discriminate.
Qed.

(** *** The three ways a run goes once the prerequisites are met *)

(** Some redeployment was not triggered: the run ends at line 211. *)
Lemma main_trigger_failed :
  prerequisites_met cfg cli = true ->
  forallb (trigger_ok cfg cli) (SERVICES cfg) = false ->
  main cfg cli
  = (opening cfg cli ++ flat_map (trigger_trace cfg cli) (SERVICES cfg)
     ++ [Log ERROR
           ("Failed to update services: "
            ^ join (filter (fun s => negb (trigger_ok cfg cli s))
                      (SERVICES cfg)))],
     Exit 1).
Proof.
  intros Hp Ht. rewrite (main_met Hp). cbv zeta.
  cbn [failed_services].
  pose proof (filter_some _ _ Ht) as Hne.
  destruct (filter _ (SERVICES cfg)) as [|s l]; [contradiction|].
  reflexivity.
Qed.

(** Every redeployment was triggered: the run goes on with line 214. *)
Lemma main_triggered :
  prerequisites_met cfg cli = true ->
  forallb (trigger_ok cfg cli) (SERVICES cfg) = true ->
  let a := {| failed_services := []; updated_services := SERVICES cfg |} in
  main cfg cli
  = (opening cfg cli ++ flat_map (trigger_trace cfg cli) (SERVICES cfg)
     ++ trace (conclude cfg cli a),
     snd (conclude cfg cli a)).
Proof.
  intros Hp Ht. rewrite (main_met Hp). cbv zeta.
  now rewrite (filter_none _ _ Ht), (filter_all _ _ Ht).
Qed.

(** *** The calls of a run *)

Lemma calls_opening :
  calls (opening cfg cli)
  = if aws_installed cli
    then [describe_clusters (CLUSTER_NAME cfg) (AWS_REGION cfg)]
    else [].
Proof.
  unfold opening, trace, check_prerequisites, bind. cbn.
  destruct (aws_installed cli); cbn; [|reflexivity].
  destruct (Nat.eqb _ 0); reflexivity.
Qed.

Lemma calls_items (l : list string) : calls (map item l) = [].
Proof. induction l as [|s l IH]; [reflexivity | exact IH]. Qed.

Lemma calls_summary (a : arrays) : calls (trace (summary cfg a)) = [].
Proof.
  destruct (failed_services a) as [|s l] eqn:E.
  - rewrite (summary_success a E). unfold trace. cbn [fst].
    rewrite !calls_app, calls_items. reflexivity.
  - rewrite summary_failure by (rewrite E; discriminate). reflexivity.
Qed.

Lemma filter_flat_map_nil (p : aws_call -> bool)
  (f : string -> list aws_call) (l : list string) :
  (forall s, filter p (f s) = []) -> filter p (flat_map f l) = [].
Proof.
  intros H. induction l as [|s l IH]; [reflexivity|].
  cbn. now rewrite filter_app, H, IH.
Qed.

Lemma filter_flat_map_all (p : aws_call -> bool)
  (f : string -> list aws_call) (l : list string) :
  (forall s, filter p (f s) = f s) -> filter p (flat_map f l) = flat_map f l.
Proof.
  intros H. induction l as [|s l IH]; [reflexivity|].
  cbn. now rewrite filter_app, H, IH.
Qed.

Lemma prerequisites_met_iff :
  prerequisites_met cfg cli
  = aws_installed cli
    && Nat.eqb
         (snd (aws cli (describe_clusters (CLUSTER_NAME cfg) (AWS_REGION cfg))))
         0.
Proof.
  unfold prerequisites_met, completes, check_prerequisites, bind. cbn.
  destruct (aws_installed cli); cbn; [|reflexivity].
  destruct (Nat.eqb _ 0); reflexivity.
Qed.


(** *** Calls of each kind *)

Lemma no_wait_in_opening : filter is_wait (calls (opening cfg cli)) = [].
Proof. rewrite calls_opening. now destruct (aws_installed cli). Qed.

Lemma no_audit_in_opening : filter is_audit (calls (opening cfg cli)) = [].
Proof. rewrite calls_opening. now destruct (aws_installed cli). Qed.

Lemma no_wait_in_trigger (l : list string) :
  filter is_wait (calls (flat_map (trigger_trace cfg cli) l)) = [].
Proof.
  rewrite calls_flat_map. apply filter_flat_map_nil. intros s.
  rewrite calls_trigger_trace. now destruct (String.eqb _ "ACTIVE").
Qed.

Lemma no_audit_in_trigger (l : list string) :
  filter is_audit (calls (flat_map (trigger_trace cfg cli) l)) = [].
Proof.
  rewrite calls_flat_map. apply filter_flat_map_nil. intros s.
  rewrite calls_trigger_trace. now destruct (String.eqb _ "ACTIVE").
Qed.

Lemma no_wait_in_audit (l : list string) :
  filter is_wait (calls (flat_map (audit_trace cfg cli) l)) = [].
Proof.
  rewrite calls_flat_map. apply filter_flat_map_nil. intros s.
  rewrite calls_audit_trace. now destruct (health_ok cfg cli s).
Qed.

Lemma only_audit_in_audit (l : list string) :
  filter is_audit (calls (flat_map (audit_trace cfg cli) l))
  = calls (flat_map (audit_trace cfg cli) l).
Proof.
  rewrite calls_flat_map. apply filter_flat_map_all. intros s.
  rewrite calls_audit_trace. now destruct (health_ok cfg cli s).
Qed.

Lemma wait_calls_wait_phase (a : arrays) :
  filter is_wait (calls (trace (wait_phase cfg cli a)))
  = calls (trace (wait_phase cfg cli a)).
Proof.
  rewrite wait_phase_calls.
  destruct (String.eqb (WAIT_FOR_STABLE cfg) "true"); [|reflexivity].
  induction (updated_services a) as [|s l IH]; [reflexivity|].
  cbn. now rewrite IH.
Qed.

Lemma no_audit_in_wait_phase (a : arrays) :
  filter is_audit (calls (trace (wait_phase cfg cli a))) = [].
Proof.
  rewrite wait_phase_calls.
  destruct (String.eqb (WAIT_FOR_STABLE cfg) "true"); [|reflexivity].
  induction (updated_services a) as [|s l IH]; [reflexivity|].
  cbn. now rewrite IH.
Qed.

(** The waits of [main] from line 214 on do not depend on how the audit
    goes. *)
Lemma wait_calls_conclude (a : arrays) :
  filter is_wait (calls (trace (conclude cfg cli a)))
  = if String.eqb (WAIT_FOR_STABLE cfg) "true"
    then map (wait_command cfg) (updated_services a)
    else [].
Proof.
  rewrite <- wait_phase_calls, <- wait_calls_wait_phase.
  destruct (forallb (audit_ok cfg cli) (updated_services a)) eqn:H.
  - rewrite (conclude_clean a H). unfold trace at 1. cbn [fst].
    rewrite !calls_app, !filter_app, no_wait_in_audit, calls_summary.
    cbn. now rewrite app_nil_r.
  - destruct (conclude_stops a H) as (l1 & s & l2 & _ & _ & _ & E).
    rewrite E. unfold trace at 1. cbn [fst].
    rewrite !calls_app, !filter_app, no_wait_in_audit.
    cbn. now rewrite app_nil_r.
Qed.

Lemma audit_calls_conclude_clean (a : arrays) :
  forallb (audit_ok cfg cli) (updated_services a) = true ->
  filter is_audit (calls (trace (conclude cfg cli a)))
  = flat_map (fun s => [running_query cfg s; desired_query cfg s;
                        deployments_query cfg s])
      (updated_services a).
Proof.
  intros H. rewrite (conclude_clean a H). unfold trace at 1. cbn [fst].
  rewrite !calls_app, !filter_app, no_audit_in_wait_phase,
    only_audit_in_audit, calls_summary.
  cbn [audit_header calls filter app]. rewrite app_nil_r.
  rewrite calls_flat_map.
  induction (updated_services a) as [|s l IH]; [reflexivity|].
  cbn [forallb] in H. apply andb_true_iff in H as [Hs Hl].
  cbn [flat_map]. rewrite (IH Hl), calls_audit_trace.
  apply andb_true_iff in Hs as [-> _]. reflexivity.
Qed.

End Functions.

(** * The claims *)

(** ** Trigger *)


Example update_service_draining :
  update_service fleet
    (answering (status_query fleet "tasks") (line "DRAINING", 0) healthy)
    "tasks"
  = ([Log STEP "Updating tasks service...";
      Call (status_query fleet "tasks");
      Log ERROR "Service 'ecs-trial-tasks-service' not found or not active"],
     Done 1).
Proof. reflexivity. Qed.

(** ** Prerequisites *)

(** C7.  When the [aws] tool is missing or the cluster lookup fails, the
    run consists of the banner and the prerequisite check: it ends with
    status 1, no command about any service is issued and no service is
    itemised. *)
Theorem unmet_prerequisites_abort (cfg : config) (cli : aws_cli) :
  aws_installed cli = false
  \/ snd (aws cli (describe_clusters (CLUSTER_NAME cfg) (AWS_REGION cfg))) <> 0 ->
  main cfg cli = (opening cfg cli, Exit 1) /\
  exit_status (main cfg cli) = 1 /\
  filter is_per_service (calls (trace (main cfg cli))) = [] /\
  summary_updated (trace (main cfg cli)) = [].
Proof.
  intros H.
  assert (Hp : prerequisites_met cfg cli = false).
  { rewrite prerequisites_met_iff. destruct H as [-> | H]; [reflexivity|].
    apply Nat.eqb_neq in H. rewrite H. apply andb_false_r. }
  rewrite (main_unmet cfg cli Hp). unfold exit_status, trace. cbn [fst snd].
  repeat split.
  - rewrite calls_opening. now destruct (aws_installed cli).
  - apply summary_updated_opening.
Qed.

Lemma unmet_prerequisites_abort_witness :
  exit_status (main fleet without_tool) = 1
  /\ exit_status
       (main fleet
          (answering (describe_clusters "ecs-trial-cluster" "eu-west-1")
             (EmptyString, 254) healthy)) = 1.
Proof.
  split.
  - apply (unmet_prerequisites_abort fleet without_tool).
    left. reflexivity.
  - apply (unmet_prerequisites_abort fleet
             (answering (describe_clusters "ecs-trial-cluster" "eu-west-1")
                (EmptyString, 254) healthy)).
    right. vm_compute. discriminate.
Defined.

(** ** Trigger failures *)

(** C2.  When the redeployment of at least one service of the list is not
    triggered, the run ends with status 1 and [aws ecs wait] is never
    invoked. *)
Theorem trigger_failure_aborts (cfg : config) (cli : aws_cli) :
  (exists s, In s (SERVICES cfg) /\ trigger_ok cfg cli s = false) ->
  exit_status (main cfg cli) = 1 /\ wait_calls (main cfg cli) = [].
Proof.
  intros H. apply forallb_false_iff in H.
  unfold wait_calls.
  destruct (prerequisites_met cfg cli) eqn:Hp.
  - rewrite (main_trigger_failed cfg cli Hp H).
    unfold exit_status, trace. cbn [fst snd]. split; [reflexivity|].
    rewrite !calls_app, !filter_app, no_wait_in_opening, no_wait_in_trigger.
    reflexivity.
  - rewrite (main_unmet cfg cli Hp).
    unfold exit_status, trace. cbn [fst snd]. split; [reflexivity|].
    apply no_wait_in_opening.
Qed.

Lemma trigger_failure_aborts_witness :
  let cli :=
    answering (status_query fleet "tasks") (line "DRAINING", 0) healthy in
  exit_status (main fleet cli) = 1 /\ wait_calls (main fleet cli) = [].
Proof.
  apply (trigger_failure_aborts fleet).
  exists "tasks". split; [|reflexivity].
  right. right. left. reflexivity.
Defined.

(** ** The audit and the exit status *)

(** A run in which nothing fails, audit included, ends with status 0 and
    itemises exactly the services of the list, in order. *)
Lemma clean_run_succeeds (cfg : config) (cli : aws_cli) :
  prerequisites_met cfg cli = true ->
  forallb (trigger_ok cfg cli) (SERVICES cfg) = true ->
  String.eqb (WAIT_FOR_STABLE cfg) "true" = false
  \/ forallb (wait_ok cfg cli) (SERVICES cfg) = true ->
  forallb (audit_ok cfg cli) (SERVICES cfg) = true ->
  exit_status (main cfg cli) = 0
  /\ summary_updated (trace (main cfg cli)) = SERVICES cfg.
Proof.
  intros Hp Ht Hw Ha.
  rewrite (main_triggered cfg cli Hp Ht). cbv zeta.
  rewrite (conclude_clean cfg cli
             {| failed_services := []; updated_services := SERVICES cfg |} Ha).
  assert (E : summary_arrays cfg cli
                {| failed_services := []; updated_services := SERVICES cfg |}
              = {| failed_services := []; updated_services := SERVICES cfg |}).
  { unfold summary_arrays, wait_failures. cbn.
    destruct Hw as [-> | Hw]; [reflexivity|].
    rewrite (filter_none _ _ Hw). now destruct (String.eqb _ _). }
  rewrite E.
  rewrite (summary_success cfg
             {| failed_services := []; updated_services := SERVICES cfg |}
             eq_refl).
  pose proof (summary_updated_wait_phase cfg cli
                {| failed_services := []; updated_services := SERVICES cfg |})
    as Hwp.
  unfold exit_status, trace in *. cbn [fst snd updated_services].
  split; [reflexivity|].
  rewrite !summary_updated_app, summary_updated_opening, Hwp,
    summary_updated_items.
  rewrite !summary_updated_flat_map
    by (intro; first [apply summary_updated_trigger_trace
                     | apply summary_updated_audit_trace]).
  cbn. now rewrite app_nil_r.
Qed.

(** C1.  The run [update-services.sh auth] against [one_task_short]: the
    redeployment is triggered and the wait succeeds, yet the shell ends
    with status 1 at the health check (line 237, under [set -e]) and the
    summary is never written.  The same happens with waiting disabled. *)
Theorem unhealthy_audit_fails_triggered_run :
  let cfg := configure no_env ["auth"] in
  SERVICES cfg = ["auth"]
  /\ prerequisites_met cfg one_task_short = true
  /\ trigger_ok cfg one_task_short "auth" = true
  /\ wait_ok cfg one_task_short "auth" = true
  /\ exit_status (script no_env ["auth"] one_task_short) = 1
  /\ summary_updated (trace (script no_env ["auth"] one_task_short)) = []
  /\ WAIT_FOR_STABLE (configure (wait_env "false") ["auth"]) = "false"
  /\ exit_status (script (wait_env "false") ["auth"] one_task_short) = 1.
Proof. cbv zeta. repeat split; vm_compute; reflexivity. Qed.

(** C3.  Runs of [update-services.sh auth] that differ in the answers to
    the audit alone: with two tasks of two running the status is 0; with
    one of two, or with a failing count query, it is 1; with a failing
    deployments query it is the status of that query. *)
Theorem audit_answers_change_exit_status :
  let run := fun cli => script no_env ["auth"] cli in
  trigger_ok fleet healthy "auth" = true
  /\ wait_ok fleet healthy "auth" = true
  /\ exit_status (run healthy) = 0
  /\ exit_status (run one_task_short) = 1
  /\ exit_status (run count_unavailable) = 1
  /\ exit_status (run table_unavailable) = 254.
Proof. cbv zeta. repeat split; vm_compute; reflexivity. Qed.

(** ** Waiting *)

Lemma wait_calls_triggered (cfg : config) (cli : aws_cli) :
  prerequisites_met cfg cli = true ->
  forallb (trigger_ok cfg cli) (SERVICES cfg) = true ->
  wait_calls (main cfg cli)
  = if String.eqb (WAIT_FOR_STABLE cfg) "true"
    then map (wait_command cfg) (SERVICES cfg)
    else [].
Proof.
  intros Hp Ht. unfold wait_calls.
  rewrite (main_triggered cfg cli Hp Ht). cbv zeta.
  unfold trace at 1. cbn [fst].
  rewrite !calls_app, !filter_app, no_wait_in_opening, no_wait_in_trigger.
  cbn [app]. apply wait_calls_conclude.
Qed.

(** C4, at its own input: [auth] becomes stable and [frontend] does not.
    The run ends with status 1, but its summary itemises no service: the
    claim that [auth] is reported as succeeded fails. *)
Lemma partial_success_not_itemised :
  let r := main auth_and_frontend frontend_times_out in
  wait_ok auth_and_frontend frontend_times_out "auth" = true
  /\ wait_ok auth_and_frontend frontend_times_out "frontend" = false
  /\ exit_status r = 1
  /\ summary_updated (trace r) = []
  /\ summary_updated (trace r) <> ["auth"].
Proof.
  cbv zeta. repeat split; try (vm_compute; reflexivity).
  vm_compute. discriminate.
Qed.

(** C4, amended.  With waiting enabled, every triggered service is waited
    for, in order, whether or not an earlier wait failed; a service whose
    wait fails is among the failed services; and when the audit goes
    through, the run ends with status 1 and a summary that names the
    services whose wait failed and itemises no service as updated. *)
Theorem wait_failure_is_recorded (cfg : config) (cli : aws_cli) (s0 : string) :
  prerequisites_met cfg cli = true ->
  forallb (trigger_ok cfg cli) (SERVICES cfg) = true ->
  WAIT_FOR_STABLE cfg = "true" ->
  In s0 (SERVICES cfg) ->
  wait_ok cfg cli s0 = false ->
  forallb (audit_ok cfg cli) (SERVICES cfg) = true ->
  let failed := filter (fun s => negb (wait_ok cfg cli s)) (SERVICES cfg) in
  wait_calls (main cfg cli) = map (wait_command cfg) (SERVICES cfg)
  /\ In s0 failed
  /\ exit_status (main cfg cli) = 1
  /\ summary_failed (trace (main cfg cli)) failed
  /\ summary_updated (trace (main cfg cli)) = [].
Proof.
  intros Hp Ht Hw Hin Hs0 Ha failed.
  assert (Hw' : String.eqb (WAIT_FOR_STABLE cfg) "true" = true)
    by now apply String.eqb_eq.
  assert (Hf : In s0 failed).
  { apply filter_In. split; [exact Hin | now rewrite Hs0]. }
  split; [|split; [exact Hf|]].
  { now rewrite (wait_calls_triggered cfg cli Hp Ht), Hw'. }
  rewrite (main_triggered cfg cli Hp Ht). cbv zeta.
  rewrite (conclude_clean cfg cli
             {| failed_services := []; updated_services := SERVICES cfg |} Ha).
  assert (E : summary_arrays cfg cli
                {| failed_services := []; updated_services := SERVICES cfg |}
              = {| failed_services := failed;
                   updated_services := SERVICES cfg |}).
  { unfold summary_arrays, wait_failures. cbn. now rewrite Hw'. }
  rewrite E.
  rewrite (summary_failure cfg
             {| failed_services := failed; updated_services := SERVICES cfg |})
    by (cbn; intros E'; rewrite E' in Hf; exact Hf).
  pose proof (summary_updated_wait_phase cfg cli
                {| failed_services := []; updated_services := SERVICES cfg |})
    as Hwp.
  unfold exit_status, summary_failed, trace in *.
  cbn [fst snd updated_services failed_services].
  repeat split.
  - do 6 (apply in_or_app; right). left. reflexivity.
  - rewrite !summary_updated_app, summary_updated_opening, Hwp.
    rewrite !summary_updated_flat_map
      by (intro; first [apply summary_updated_trigger_trace
                       | apply summary_updated_audit_trace]).
    reflexivity.
Qed.

Lemma wait_failure_is_recorded_witness :
  let r := main auth_and_frontend frontend_times_out in
  wait_calls r
  = [wait_command fleet "auth"; wait_command fleet "frontend"]
  /\ exit_status r = 1
  /\ summary_failed (trace r) ["frontend"]
  /\ summary_updated (trace r) = [].
Proof.
  destruct (wait_failure_is_recorded auth_and_frontend frontend_times_out
              "frontend") as (H1 & _ & H2 & H3 & H4);
    try reflexivity.
  - right. left. reflexivity.
  - cbv zeta. exact (conj H1 (conj H2 (conj H3 H4))).
Defined.

(** ** The audit phase *)

(** C5, refuted on the fleet with [users] draining: the redeployment of
    [auth] is triggered, yet no audit query is ever issued, because the run
    ends at line 211. *)
Lemma no_audit_after_trigger_failure :
  let r := script no_env [] users_draining in
  prerequisites_met fleet users_draining = true
  /\ trigger_ok fleet users_draining "auth" = true
  /\ existsb (aws_call_eqb (redeploy_command fleet "auth")) (calls (trace r))
     = true
  /\ audit_calls r = []
  /\ audit_calls r <> [running_query fleet "auth"; desired_query fleet "auth";
                       deployments_query fleet "auth"].
Proof.
  cbv zeta. repeat split; try (vm_compute; reflexivity).
  vm_compute. discriminate.
Qed.

(** C5, amended.  In a run that passes the prerequisite check, the audit
    is reached only when every redeployment was triggered: after a trigger
    failure no audit query is issued; after none, and when each audit call
    returns 0, the three audit queries are issued for every service, in
    list order. *)
Theorem audit_requires_full_trigger (cfg : config) (cli : aws_cli) :
  prerequisites_met cfg cli = true ->
  (forallb (trigger_ok cfg cli) (SERVICES cfg) = false ->
   audit_calls (main cfg cli) = [])
  /\ (forallb (trigger_ok cfg cli) (SERVICES cfg) = true ->
      forallb (audit_ok cfg cli) (SERVICES cfg) = true ->
      audit_calls (main cfg cli)
      = flat_map (fun s => [running_query cfg s; desired_query cfg s;
                            deployments_query cfg s])
          (SERVICES cfg)).
Proof.
  intros Hp. unfold audit_calls. split.
  - intros Ht. rewrite (main_trigger_failed cfg cli Hp Ht).
    unfold trace. cbn [fst].
    rewrite !calls_app, !filter_app, no_audit_in_opening, no_audit_in_trigger.
    reflexivity.
  - intros Ht Ha. rewrite (main_triggered cfg cli Hp Ht). cbv zeta.
    unfold trace at 1. cbn [fst].
    rewrite !calls_app, !filter_app, no_audit_in_opening, no_audit_in_trigger.
    cbn [app].
    apply (audit_calls_conclude_clean cfg cli
             {| failed_services := []; updated_services := SERVICES cfg |} Ha).
Qed.

Lemma audit_requires_full_trigger_witness :
  audit_calls (main fleet users_draining) = []
  /\ audit_calls (main (configure no_env ["auth"]) healthy)
     = [running_query fleet "auth"; desired_query fleet "auth";
        deployments_query fleet "auth"].
Proof.
  split.
  - apply (audit_requires_full_trigger fleet users_draining); reflexivity.
  - apply (audit_requires_full_trigger (configure no_env ["auth"]) healthy);
      reflexivity.
Defined.

(** ** Configuration *)

(** C9, refuted: an empty positional argument selects the four default
    services, not the (empty) service it names. *)
Lemma empty_argument_selects_fleet :
  SERVICES (configure no_env [EmptyString])
  = ["auth"; "users"; "tasks"; "frontend"]
  /\ SERVICES (configure no_env [EmptyString]) <> [EmptyString].
Proof. split; [reflexivity | discriminate]. Qed.

(** *** Which services a run is about *)

Lemma Forall_calls_flat_map (P : aws_call -> Prop)
  (f : string -> list event) (l : list string) :
  (forall s, In s l -> Forall P (calls (f s))) ->
  Forall P (calls (flat_map f l)).
Proof.
  induction l as [|s l IH]; intros H; [constructor|].
  cbn [flat_map]. rewrite calls_app. apply Forall_app. split.
  - apply H. now left.
  - apply IH. intros x Hx. apply H. now right.
Qed.

Lemma may_issue_opening (cfg : config) (cli : aws_cli) :
  Forall (may_issue cfg) (calls (opening cfg cli)).
Proof.
  rewrite calls_opening.
  destruct (aws_installed cli); [|constructor].
  apply Forall_cons; [now left | constructor].
Qed.

Lemma may_issue_trigger (cfg : config) (cli : aws_cli) (l : list string) :
  incl l (SERVICES cfg) ->
  Forall (may_issue cfg) (calls (flat_map (trigger_trace cfg cli) l)).
Proof.
  intros Hl. apply Forall_calls_flat_map. intros s Hs.
  rewrite calls_trigger_trace.
  assert (Hin : In s (SERVICES cfg)) by now apply Hl.
  destruct (String.eqb _ "ACTIVE");
    repeat (apply Forall_cons; [right; exists s; tauto|]); apply Forall_nil.
Qed.

Lemma may_issue_audit (cfg : config) (cli : aws_cli) (l : list string) :
  incl l (SERVICES cfg) ->
  Forall (may_issue cfg) (calls (flat_map (audit_trace cfg cli) l)).
Proof.
  intros Hl. apply Forall_calls_flat_map. intros s Hs.
  rewrite calls_audit_trace.
  assert (Hin : In s (SERVICES cfg)) by now apply Hl.
  destruct (health_ok cfg cli s);
    repeat (apply Forall_cons; [right; exists s; tauto|]); apply Forall_nil.
Qed.

Lemma may_issue_wait_phase (cfg : config) (cli : aws_cli) :
  Forall (may_issue cfg)
    (calls (trace (wait_phase cfg cli
                     {| failed_services := [];
                        updated_services := SERVICES cfg |}))).
Proof.
  rewrite wait_phase_calls. cbn [updated_services].
  destruct (String.eqb (WAIT_FOR_STABLE cfg) "true") eqn:Hw; [|constructor].
  apply String.eqb_eq in Hw. apply Forall_forall. intros c Hc.
  apply in_map_iff in Hc as (s & <- & Hs). right. exists s. tauto.
Qed.

(** Every call of a run is the cluster lookup or concerns a service of
    the list. *)
Lemma calls_concern_services (cfg : config) (cli : aws_cli) :
  Forall (may_issue cfg) (calls (trace (main cfg cli))).
Proof.
  destruct (prerequisites_met cfg cli) eqn:Hp.
  - destruct (forallb (trigger_ok cfg cli) (SERVICES cfg)) eqn:Ht.
    + rewrite (main_triggered cfg cli Hp Ht). cbv zeta.
      unfold trace at 1. cbn [fst]. rewrite !calls_app.
      apply Forall_app. split; [apply may_issue_opening|].
      apply Forall_app. split; [apply may_issue_trigger, incl_refl|].
      destruct (forallb (audit_ok cfg cli) (SERVICES cfg)) eqn:Ha.
      * rewrite (conclude_clean cfg cli
                   {| failed_services := [];
                      updated_services := SERVICES cfg |} Ha).
        unfold trace at 1. cbn [fst updated_services]. rewrite !calls_app.
        apply Forall_app. split; [apply may_issue_wait_phase|].
        apply Forall_app. split; [constructor|].
        apply Forall_app. split; [apply may_issue_audit, incl_refl|].
        rewrite calls_summary. constructor.
      * destruct (conclude_stops cfg cli
                    {| failed_services := [];
                       updated_services := SERVICES cfg |} Ha)
          as (l1 & s & l2 & E & _ & _ & ->).
        cbn [updated_services] in E.
        unfold trace at 1. cbn [fst]. rewrite !calls_app.
        apply Forall_app. split; [apply may_issue_wait_phase|].
        apply Forall_app. split; [constructor|].
        apply may_issue_audit. intros x Hx. rewrite E.
        apply in_app_or in Hx as [Hx | [<- | []]];
          apply in_or_app; [now left | right; now left].
    + rewrite (main_trigger_failed cfg cli Hp Ht). unfold trace. cbn [fst].
      rewrite !calls_app.
      apply Forall_app. split; [apply may_issue_opening|].
      apply Forall_app. split; [apply may_issue_trigger, incl_refl|].
      constructor.
  - rewrite (main_unmet cfg cli Hp). apply may_issue_opening.
Qed.

Lemma no_status_query_in_conclude (cfg : config) (cli : aws_cli)
  (a : arrays) :
  filter is_status_query (calls (trace (conclude cfg cli a))) = [].
Proof.
  assert (Hw : filter is_status_query
                 (calls (trace (wait_phase cfg cli a))) = []).
  { rewrite wait_phase_calls.
    destruct (String.eqb (WAIT_FOR_STABLE cfg) "true"); [|reflexivity].
    induction (updated_services a) as [|s l IH]; [reflexivity | exact IH]. }
  assert (Ha : forall l,
             filter is_status_query
               (calls (flat_map (audit_trace cfg cli) l)) = []).
  { intros l. rewrite calls_flat_map. apply filter_flat_map_nil. intros s.
    rewrite calls_audit_trace. now destruct (health_ok cfg cli s). }
  destruct (forallb (audit_ok cfg cli) (updated_services a)) eqn:H.
  - rewrite (conclude_clean cfg cli a H). unfold trace at 1. cbn [fst].
    now rewrite !calls_app, !filter_app, Hw, Ha, calls_summary.
  - destruct (conclude_stops cfg cli a H) as (l1 & s & l2 & _ & _ & _ & E).
    rewrite E. unfold trace at 1. cbn [fst].
    now rewrite !calls_app, !filter_app, Hw, Ha.
Qed.

Lemma status_queries_in_trigger (cfg : config) (cli : aws_cli)
  (l : list string) :
  filter is_status_query (calls (flat_map (trigger_trace cfg cli) l))
  = map (status_query cfg) l.
Proof.
  induction l as [|s l IH]; [reflexivity|].
  cbn [flat_map map]. rewrite calls_app, filter_app, IH, calls_trigger_trace.
  now destruct (String.eqb (service_status cfg cli s) "ACTIVE").
Qed.

(** The status queries of a run that passes the prerequisite check are
    those of the services of the list, once each and in list order. *)
Lemma status_queries_of_run (cfg : config) (cli : aws_cli) :
  prerequisites_met cfg cli = true ->
  filter is_status_query (calls (trace (main cfg cli)))
  = map (status_query cfg) (SERVICES cfg).
Proof.
  intros Hp.
  assert (Ho : filter is_status_query (calls (opening cfg cli)) = []).
  { rewrite calls_opening. now destruct (aws_installed cli). }
  destruct (forallb (trigger_ok cfg cli) (SERVICES cfg)) eqn:Ht.
  - rewrite (main_triggered cfg cli Hp Ht). cbv zeta.
    unfold trace at 1. cbn [fst].
    rewrite !calls_app, !filter_app, Ho, status_queries_in_trigger,
      no_status_query_in_conclude.
    cbn [app]. now rewrite app_nil_r.
  - rewrite (main_trigger_failed cfg cli Hp Ht). unfold trace. cbn [fst].
    rewrite !calls_app, !filter_app, Ho, status_queries_in_trigger.
    cbn. now rewrite app_nil_r.
Qed.

(** C9, amended.  Without a positional argument, or with an empty one,
    the services are [auth], [users], [tasks] and [frontend]; with one
    non-empty positional argument the only service is that argument.  The
    run processes exactly these services, in that order: a run that
    passes the prerequisite check goes through the first loop for each of
    them in list order, its status queries are those of the list, once
    each and in order, and every call of any run is the cluster lookup or
    concerns a service of the list. *)
Theorem services_selected (getenv : string -> option string)
  (args : list string) (cli : aws_cli) :
  let cfg := configure getenv args in
  (args = [] \/ args = [EmptyString] ->
   SERVICES cfg = ["auth"; "users"; "tasks"; "frontend"])
  /\ (forall a, args = [a] -> a <> EmptyString -> SERVICES cfg = [a])
  /\ (prerequisites_met cfg cli = true ->
      (exists rest,
         trace (script getenv args cli)
         = opening cfg cli
           ++ flat_map (trigger_trace cfg cli) (SERVICES cfg) ++ rest)
      /\ filter is_status_query (calls (trace (script getenv args cli)))
         = map (status_query cfg) (SERVICES cfg))
  /\ Forall (may_issue cfg) (calls (trace (script getenv args cli))).
Proof.
  cbv zeta. split; [|split; [|split]].
  - intros [-> | ->]; reflexivity.
  - intros a -> Ha. unfold configure, arg1. cbn.
    apply String.eqb_neq in Ha. now rewrite Ha.
  - intros Hp. unfold script. split.
    + rewrite (main_met _ _ Hp). cbv zeta. unfold trace. cbn [fst]. eauto.
    + now apply status_queries_of_run.
  - apply calls_concern_services.
Qed.

Lemma services_selected_witness :
  SERVICES (configure no_env []) = ["auth"; "users"; "tasks"; "frontend"]
  /\ SERVICES (configure no_env ["tasks"]) = ["tasks"]
  /\ filter is_status_query (calls (trace (script no_env ["tasks"] healthy)))
     = [status_query fleet "tasks"].
Proof.
  split; [|split].
  - apply (services_selected no_env [] healthy). left. reflexivity.
  - destruct (services_selected no_env ["tasks"] healthy) as (_ & H & _).
    apply (H "tasks"); [reflexivity | discriminate].
  - destruct (services_selected no_env ["tasks"] healthy) as (_ & _ & H & _).
    apply (H eq_refl).
Defined.

(** ** Runs against collaborators that answer alike *)

Lemma bind_ext {A B : Type} (m : sh A) (f g : A -> sh B) :
  (forall a, snd m = Done a -> f a = g a) -> bind m f = bind m g.
Proof.
  intros H. unfold bind. destruct (snd m) as [a|code] eqn:E; [|reflexivity].
  now rewrite (H a eq_refl).
Qed.

Lemma for_each_ext {A S : Type} (l : list A) (body body' : A -> S -> sh S)
  (s : S) :
  (forall x s', In x l -> body x s' = body' x s') ->
  for_each l body s = for_each l body' s.
Proof.
  revert s. induction l as [|x l IH]; intros s H; [reflexivity|].
  cbn [for_each]. rewrite (H x s (or_introl eq_refl)).
  apply bind_ext. intros s' _. apply IH.
  intros y s'' Hy. apply H. now right.
Qed.

Section Alike.

Variable cfg : config.
Variables cli cli' : aws_cli.
Hypothesis alike : same_answers cfg cli cli'.

Lemma check_prerequisites_alike :
  check_prerequisites cfg cli = check_prerequisites cfg cli'.
Proof.
  destruct alike as [Hi Ha]. unfold check_prerequisites, run_aws.
  rewrite Hi, (Ha (describe_clusters (CLUSTER_NAME cfg) (AWS_REGION cfg)))
    by now left.
  reflexivity.
Qed.

Lemma trigger_one_alike (s : string) (a : arrays) :
  In s (SERVICES cfg) ->
  trigger_one cfg cli s a = trigger_one cfg cli' s a.
Proof.
  intros Hs. destruct alike as [_ Ha].
  unfold trigger_one, update_service, run_aws.
  rewrite (Ha (status_query cfg s)), (Ha (redeploy_command cfg s));
    [reflexivity | right; exists s; tauto ..].
Qed.

Lemma wait_phase_alike (a : arrays) :
  incl (updated_services a) (SERVICES cfg) ->
  wait_phase cfg cli a = wait_phase cfg cli' a.
Proof.
  intros Hincl. destruct alike as [_ Ha]. unfold wait_phase.
  destruct (String.eqb (WAIT_FOR_STABLE cfg) "true") eqn:Hw; [|reflexivity].
  apply String.eqb_eq in Hw.
  apply bind_ext; intros _ _. apply bind_ext; intros _ _.
  apply bind_ext; intros _ _. apply bind_ext; intros _ _.
  apply for_each_ext. intros s a' Hs.
  unfold wait_one, wait_for_service, run_aws.
  rewrite (Ha (wait_command cfg s)); [reflexivity|].
  right. exists s. split; [now apply Hincl | tauto].
Qed.

Lemma audit_phase_alike (a : arrays) :
  incl (updated_services a) (SERVICES cfg) ->
  audit_phase cfg cli a = audit_phase cfg cli' a.
Proof.
  intros Hincl. destruct alike as [_ Ha]. unfold audit_phase.
  apply bind_ext; intros _ _. apply bind_ext; intros _ _.
  apply bind_ext; intros _ _. apply bind_ext; intros _ _.
  apply for_each_ext. intros s a' Hs.
  assert (Hin : In s (SERVICES cfg)) by now apply Hincl.
  unfold audit_one, check_service_health, get_deployment_status, run_aws.
  rewrite (Ha (running_query cfg s)), (Ha (desired_query cfg s)),
    (Ha (deployments_query cfg s));
    [reflexivity | right; exists s; tauto ..].
Qed.

(** The run is a function of the answers to the commands it can issue. *)
Lemma main_alike : main cfg cli = main cfg cli'.
Proof.
  unfold main. apply bind_ext; intros _ _.
  rewrite check_prerequisites_alike. apply bind_ext; intros _ _.
  assert (Ht : trigger_phase cfg cli = trigger_phase cfg cli').
  { unfold trigger_phase. apply for_each_ext.
    intros s a Hs. now apply trigger_one_alike. }
  rewrite <- Ht. apply bind_ext. intros a Ea.
  rewrite trigger_phase_eq in Ea. cbn in Ea. injection Ea as <-.
  cbn [failed_services].
  destruct (Nat.ltb 0 _); [reflexivity|].
  assert (Hincl : incl (filter (trigger_ok cfg cli) (SERVICES cfg))
                    (SERVICES cfg)).
  { intros s Hs. now apply filter_In in Hs. }
  rewrite <- wait_phase_alike by exact Hincl.
  apply bind_ext. intros a' Ea'.
  rewrite wait_phase_outcome in Ea'. injection Ea' as <-.
  rewrite audit_phase_alike by exact Hincl. reflexivity.
Qed.

End Alike.

(** C8.  Two runs of the script with the same environment and arguments,
    against collaborators that give the same answers to the commands the
    script can issue, are identical: same output and calls, same exit
    status, same services itemised as updated and named as failed. *)
Theorem runs_with_same_answers_agree (getenv : string -> option string)
  (args : list string) (cli cli' : aws_cli) :
  same_answers (configure getenv args) cli cli' ->
  script getenv args cli = script getenv args cli'
  /\ exit_status (script getenv args cli)
     = exit_status (script getenv args cli')
  /\ summary_updated (trace (script getenv args cli))
     = summary_updated (trace (script getenv args cli'))
  /\ forall failed,
       summary_failed (trace (script getenv args cli)) failed
       <-> summary_failed (trace (script getenv args cli')) failed.
Proof.
  intros H. unfold script.
  rewrite (main_alike (configure getenv args) cli cli' H).
  repeat split; trivial.
Qed.

Lemma runs_with_same_answers_agree_witness :
  script no_env ["tasks"] healthy = script no_env ["tasks"] billing_missing
  /\ aws healthy (status_query fleet "billing")
     <> aws billing_missing (status_query fleet "billing").
Proof.
  split.
  - apply (runs_with_same_answers_agree no_env ["tasks"] healthy
             billing_missing).
    split; [reflexivity|].
    intros c [-> | (s & [<- | []] & H)]; [reflexivity|].
    destruct H as [-> | [-> | [[_ ->] | [-> | [-> | ->]]]]]; reflexivity.
  - vm_compute. discriminate.
Defined.

(** ** The switch *)

Lemma wait_calls_disabled (cfg : config) (cli : aws_cli) :
  String.eqb (WAIT_FOR_STABLE cfg) "true" = false ->
  wait_calls (main cfg cli) = [].
Proof.
  intros Hw.
  destruct (prerequisites_met cfg cli) eqn:Hp.
  - destruct (forallb (trigger_ok cfg cli) (SERVICES cfg)) eqn:Ht.
    + now rewrite (wait_calls_triggered cfg cli Hp Ht), Hw.
    + unfold wait_calls. rewrite (main_trigger_failed cfg cli Hp Ht).
      unfold trace. cbn [fst].
      rewrite !calls_app, !filter_app, no_wait_in_opening, no_wait_in_trigger.
      reflexivity.
  - unfold wait_calls. rewrite (main_unmet cfg cli Hp).
    apply no_wait_in_opening.
Qed.

Lemma services_not_empty (getenv : string -> option string)
  (args : list string) :
  SERVICES (configure getenv args) <> [].
Proof.
  unfold configure. cbn. now destruct (String.eqb (arg1 args) EmptyString).
Qed.

(** The reach of the switch.  [WAIT_FOR_STABLE] is ["true"] when the
    environment does not set it and the value of the environment
    otherwise.  A run that passes the
    prerequisite check and triggers every redeployment waits (for every
    service, in order) if and only if the value is exactly ["true"]; with
    any other value, [True], [TRUE] and [1] included, no run issues a wait
    and the run does not depend on what a wait would have answered. *)
Theorem wait_phase_iff_true (getenv : string -> option string)
  (args : list string) (cli : aws_cli) :
  let cfg := configure getenv args in
  (getenv "WAIT_FOR_STABLE" = None -> WAIT_FOR_STABLE cfg = "true")
  /\ (forall v, getenv "WAIT_FOR_STABLE" = Some v -> v <> EmptyString ->
      WAIT_FOR_STABLE cfg = v)
  /\ (prerequisites_met cfg cli = true ->
      forallb (trigger_ok cfg cli) (SERVICES cfg) = true ->
      (wait_calls (script getenv args cli) <> []
       <-> WAIT_FOR_STABLE cfg = "true")
      /\ (WAIT_FOR_STABLE cfg = "true" ->
          wait_calls (script getenv args cli)
          = map (wait_command cfg) (SERVICES cfg)))
  /\ (WAIT_FOR_STABLE cfg <> "true" ->
      wait_calls (script getenv args cli) = []
      /\ forall cli', differ_only_in_wait cli cli' ->
           script getenv args cli = script getenv args cli')
  /\ (forall v, In v ["True"; "TRUE"; "1"] ->
      getenv "WAIT_FOR_STABLE" = Some v ->
      wait_calls (script getenv args cli) = []).
Proof.
  cbv zeta. unfold script.
  split; [|split; [|split; [|split]]].
  - intros H. unfold configure. cbn. now rewrite H.
  - intros v H Hv. unfold configure. cbn. rewrite H.
    destruct v; [contradiction | reflexivity].
  - intros Hp Ht. rewrite (wait_calls_triggered _ cli Hp Ht).
    destruct (String.eqb (WAIT_FOR_STABLE (configure getenv args)) "true")
      eqn:Hw.
    + apply String.eqb_eq in Hw. split; [|reflexivity].
      split; [intros _; exact Hw|]. intros _ E.
      apply map_eq_nil in E. now apply (services_not_empty getenv args).
    + apply String.eqb_neq in Hw. split; [|contradiction].
      split; [now intros [] | contradiction].
  - intros Hw. apply String.eqb_neq in Hw. split.
    + now apply wait_calls_disabled.
    + intros cli' [Hi Hd]. apply main_alike. split; [exact Hi|].
      intros c [-> | (s & _ & H)]; [now apply Hd|].
      destruct H as [-> | [-> | [[E _] | [-> | [-> | ->]]]]];
        try (now apply Hd).
      apply String.eqb_eq in E. congruence.
  - intros v Hv H. apply wait_calls_disabled.
    unfold configure. cbn. rewrite H.
    destruct Hv as [<- | [<- | [<- | []]]]; reflexivity.
Qed.

Lemma wait_phase_iff_true_witness :
  WAIT_FOR_STABLE (configure no_env ["auth"]) = "true"
  /\ WAIT_FOR_STABLE (configure (wait_env "True") ["auth"]) = "True"
  /\ wait_calls (script no_env ["auth"] never_stable)
     = [wait_command fleet "auth"]
  /\ wait_calls (script (wait_env "True") ["auth"] never_stable) = []
  /\ script (wait_env "True") ["auth"] never_stable
     = script (wait_env "True") ["auth"] healthy
  /\ wait_calls (script (wait_env "1") ["auth"] healthy) = [].
Proof.
  destruct (wait_phase_iff_true no_env ["auth"] never_stable)
    as (H1 & _ & H3 & _ & _).
  destruct (wait_phase_iff_true (wait_env "True") ["auth"] never_stable)
    as (_ & H2 & _ & H4 & _).
  destruct (wait_phase_iff_true (wait_env "1") ["auth"] healthy)
    as (_ & _ & _ & _ & H5).
  destruct (H3 eq_refl eq_refl) as [_ H3'].
  destruct H4 as [H4 H4']; [vm_compute; discriminate|].
  split; [apply H1; reflexivity|].
  split; [apply (H2 "True"); [reflexivity | discriminate]|].
  split; [apply H3'; reflexivity|].
  split; [exact H4|].
  split.
  - apply H4'. split; [reflexivity|].
    intros c Hc. destruct c; try reflexivity. discriminate.
  - apply (H5 "1"); [right; right; left; reflexivity | reflexivity].
Defined.

(** C10.  Three runs of [update-services.sh auth] with
    [WAIT_FOR_STABLE=1]: the wait phase is skipped in each and the
    redeployment is triggered in each, so the trigger outcomes are the
    same; yet the exit status is 0, 1 or 254 according to the answers of
    the audit (lines 237-238, under [set -e]).  The run is not judged on
    the trigger outcomes alone. *)
Theorem skipped_wait_run_is_judged_by_audit :
  let cfg := configure (wait_env "1") ["auth"] in
  let run := fun cli => script (wait_env "1") ["auth"] cli in
  WAIT_FOR_STABLE cfg = "1"
  /\ SERVICES cfg = ["auth"]
  /\ (trigger_ok cfg healthy "auth" = true
      /\ trigger_ok cfg one_task_short "auth" = true
      /\ trigger_ok cfg table_unavailable "auth" = true)
  /\ (wait_calls (run healthy) = []
      /\ wait_calls (run one_task_short) = []
      /\ wait_calls (run table_unavailable) = [])
  /\ exit_status (run healthy) = 0
  /\ exit_status (run one_task_short) = 1
  /\ exit_status (run table_unavailable) = 254.
Proof. cbv zeta. repeat split; vm_compute; reflexivity. Qed.

(** * Further properties of update-services.sh *)

(** ** When the run succeeds *)

Lemma exit_status_triggered (cfg : config) (cli : aws_cli) :
  prerequisites_met cfg cli = true ->
  forallb (trigger_ok cfg cli) (SERVICES cfg) = true ->
  forallb (audit_ok cfg cli) (SERVICES cfg) = true ->
  exit_status (main cfg cli)
  = if Nat.eqb (List.length (wait_failures cfg cli (SERVICES cfg))) 0
    then 0 else 1.
Proof.
  intros Hp Ht Ha.
  rewrite (main_triggered cfg cli Hp Ht). cbv zeta.
  rewrite (conclude_clean cfg cli
             {| failed_services := []; updated_services := SERVICES cfg |} Ha).
  unfold exit_status, summary_arrays. cbn [fst snd failed_services
    updated_services app].
  destruct (wait_failures cfg cli (SERVICES cfg)) as [|s l] eqn:E.
  - now rewrite (summary_success cfg
                   {| failed_services := []; updated_services := SERVICES cfg |}
                   eq_refl).
  - now rewrite (summary_failure cfg
                   {| failed_services := s :: l;
                      updated_services := SERVICES cfg |})
      by discriminate.
Qed.

(** The exit status is 0 exactly when the prerequisites are met, every
    redeployment is triggered, every wait succeeds (or waiting is
    disabled) and every call of the audit returns 0. *)
Theorem exit_zero_iff (cfg : config) (cli : aws_cli) :
  exit_status (main cfg cli) = 0
  <-> prerequisites_met cfg cli = true
      /\ forallb (trigger_ok cfg cli) (SERVICES cfg) = true
      /\ (String.eqb (WAIT_FOR_STABLE cfg) "true" = false
          \/ forallb (wait_ok cfg cli) (SERVICES cfg) = true)
      /\ forallb (audit_ok cfg cli) (SERVICES cfg) = true.
Proof.
  split.
  - intros H.
    destruct (prerequisites_met cfg cli) eqn:Hp;
      [|rewrite (main_unmet cfg cli Hp) in H; discriminate].
    destruct (forallb (trigger_ok cfg cli) (SERVICES cfg)) eqn:Ht;
      [|rewrite (main_trigger_failed cfg cli Hp Ht) in H; discriminate].
    destruct (forallb (audit_ok cfg cli) (SERVICES cfg)) eqn:Ha.
    + repeat split.
      rewrite (exit_status_triggered cfg cli Hp Ht Ha) in H.
      unfold wait_failures in H.
      destruct (String.eqb (WAIT_FOR_STABLE cfg) "true"); [|now left].
      right. destruct (forallb (wait_ok cfg cli) (SERVICES cfg)) eqn:Hw;
        [reflexivity|].
      pose proof (filter_some _ _ Hw) as Hne.
      destruct (filter _ (SERVICES cfg)); [contradiction | discriminate].
    + rewrite (main_triggered cfg cli Hp Ht) in H. cbv zeta in H.
      destruct (conclude_stops cfg cli
                  {| failed_services := []; updated_services := SERVICES cfg |}
                  Ha) as (l1 & s & l2 & _ & _ & Hs & E).
      rewrite E in H. unfold exit_status in H. cbn [snd] in H.
      now apply (audit_exit_nonzero cfg cli s) in Hs.
  - intros (Hp & Ht & Hw & Ha).
    now apply clean_run_succeeds.
Qed.

Lemma exit_zero_iff_witness : exit_status (main fleet healthy) = 0.
Proof.
  apply (exit_zero_iff fleet healthy).
  split; [reflexivity|]. split; [reflexivity|].
  split; [right; reflexivity | reflexivity].
Defined.

(** ** When the audit stops the run *)

(** If the audit of a service returns a non-zero status, the run ends
    right there: the trace ends with the audit of that service (no later
    service is audited and no summary is written) and the exit status is
    that of the failing call, which is not 0. *)
Theorem audit_failure_ends_run (cfg : config) (cli : aws_cli)
  (l1 : list string) (s : string) (l2 : list string) :
  prerequisites_met cfg cli = true ->
  forallb (trigger_ok cfg cli) (SERVICES cfg) = true ->
  SERVICES cfg = l1 ++ s :: l2 ->
  forallb (audit_ok cfg cli) l1 = true ->
  audit_ok cfg cli s = false ->
  main cfg cli
  = (opening cfg cli ++ flat_map (trigger_trace cfg cli) (SERVICES cfg)
     ++ trace (wait_phase cfg cli
                 {| failed_services := [];
                    updated_services := SERVICES cfg |})
     ++ audit_header
     ++ flat_map (audit_trace cfg cli) l1 ++ audit_trace cfg cli s,
     Exit (audit_exit cfg cli s))
  /\ audit_exit cfg cli s <> 0
  /\ audit_exit cfg cli s
     = if health_ok cfg cli s
       then snd (aws cli (deployments_query cfg s)) else 1.
Proof.
  intros Hp Ht E H1 Hs.
  split; [|split; [now apply audit_exit_nonzero | reflexivity]].
  rewrite (main_triggered cfg cli Hp Ht). cbv zeta.
  assert (Ha : forallb (audit_ok cfg cli) (SERVICES cfg) = false).
  { apply forallb_false_iff. exists s. split; [|exact Hs].
    rewrite E. apply in_or_app. right. now left. }
  destruct (conclude_stops cfg cli
              {| failed_services := []; updated_services := SERVICES cfg |} Ha)
    as (k1 & s' & k2 & E' & K1 & Ks & ->).
  cbn [updated_services] in E'. rewrite E in E'.
  assert (k1 = l1 /\ s' = s) as [-> ->].
  { clear - E' H1 Hs K1 Ks. revert k1 E' K1.
    induction l1 as [|x l1 IH]; intros [|y k1] E' K1; cbn in *.
    - injection E' as -> _. now split.
    - injection E' as -> _. apply andb_true_iff in K1 as [K1 _].
      rewrite K1 in Hs. discriminate.
    - injection E' as -> _. apply andb_true_iff in H1 as [H1 _].
      rewrite H1 in Ks. discriminate.
    - injection E' as -> E'. apply andb_true_iff in H1 as [_ H1].
      apply andb_true_iff in K1 as [_ K1].
      destruct (IH H1 k1 E' K1) as [-> ->]. now split. }
  unfold trace. cbn [fst snd].
  rewrite flat_map_app. cbn [flat_map]. now rewrite app_nil_r.
Qed.

Lemma audit_failure_ends_run_witness :
  exit_status (main fleet users_short) = 1
  /\ audit_calls (main fleet users_short)
     = [running_query fleet "auth"; desired_query fleet "auth";
        deployments_query fleet "auth";
        running_query fleet "users"; desired_query fleet "users"].
Proof.
  destruct (audit_failure_ends_run fleet users_short ["auth"] "users"
              ["tasks"; "frontend"]) as (H & _ & _); try reflexivity.
  rewrite H. split; reflexivity.
Defined.

(** ** What a run has done by the time it fails *)

Lemma no_redeploy_in_conclude (cfg : config) (cli : aws_cli) (a : arrays) :
  filter is_redeploy (calls (trace (conclude cfg cli a))) = [].
Proof.
  assert (Hw : filter is_redeploy (calls (trace (wait_phase cfg cli a))) = []).
  { rewrite wait_phase_calls.
    destruct (String.eqb (WAIT_FOR_STABLE cfg) "true"); [|reflexivity].
    induction (updated_services a) as [|s l IH]; [reflexivity | exact IH]. }
  assert (Ha : forall l,
             filter is_redeploy (calls (flat_map (audit_trace cfg cli) l)) = []).
  { intros l. rewrite calls_flat_map. apply filter_flat_map_nil. intros s.
    rewrite calls_audit_trace. now destruct (health_ok cfg cli s). }
  destruct (forallb (audit_ok cfg cli) (updated_services a)) eqn:H.
  - rewrite (conclude_clean cfg cli a H). unfold trace at 1. cbn [fst].
    now rewrite !calls_app, !filter_app, Hw, Ha, calls_summary.
  - destruct (conclude_stops cfg cli a H) as (l1 & s & l2 & _ & _ & _ & E).
    rewrite E. unfold trace at 1. cbn [fst].
    now rewrite !calls_app, !filter_app, Hw, Ha.
Qed.

Lemma redeploys_in_trigger (cfg : config) (cli : aws_cli) (l : list string) :
  filter is_redeploy (calls (flat_map (trigger_trace cfg cli) l))
  = map (redeploy_command cfg)
      (filter (fun s => String.eqb (service_status cfg cli s) "ACTIVE") l).
Proof.
  induction l as [|s l IH]; [reflexivity|].
  cbn [flat_map filter]. rewrite calls_app, filter_app, IH, calls_trigger_trace.
  now destruct (String.eqb (service_status cfg cli s) "ACTIVE").
Qed.

(** In a run that passes the prerequisite check, a new deployment is
    forced for every service whose status is [ACTIVE], in list order,
    whatever happens to the other services: a run that ends at line 211
    because some service could not be triggered has still redeployed the
    active ones. *)
Theorem active_services_are_redeployed (cfg : config) (cli : aws_cli) :
  prerequisites_met cfg cli = true ->
  filter is_redeploy (calls (trace (main cfg cli)))
  = map (redeploy_command cfg)
      (filter (fun s => String.eqb (service_status cfg cli s) "ACTIVE")
         (SERVICES cfg)).
Proof.
  intros Hp.
  assert (Ho : filter is_redeploy (calls (opening cfg cli)) = []).
  { rewrite calls_opening. now destruct (aws_installed cli). }
  destruct (forallb (trigger_ok cfg cli) (SERVICES cfg)) eqn:Ht.
  - rewrite (main_triggered cfg cli Hp Ht). cbv zeta.
    unfold trace at 1. cbn [fst].
    rewrite !calls_app, !filter_app, Ho, redeploys_in_trigger,
      no_redeploy_in_conclude.
    cbn [app]. now rewrite app_nil_r.
  - rewrite (main_trigger_failed cfg cli Hp Ht). unfold trace. cbn [fst].
    rewrite !calls_app, !filter_app, Ho, redeploys_in_trigger.
    cbn. now rewrite app_nil_r.
Qed.

Lemma active_services_are_redeployed_witness :
  exit_status (main fleet two_refused) = 1
  /\ filter is_redeploy (calls (trace (main fleet two_refused)))
     = [redeploy_command fleet "auth"; redeploy_command fleet "tasks";
        redeploy_command fleet "frontend"].
Proof.
  split; [reflexivity|].
  apply (active_services_are_redeployed fleet two_refused). reflexivity.
Defined.

(** When some redeployment is not triggered, the last thing the run
    writes is the error naming the services that were not triggered, in
    list order; these are the services whose status is not [ACTIVE] or
    whose [update-service] command failed. *)
Theorem trigger_failures_are_named (cfg : config) (cli : aws_cli) :
  prerequisites_met cfg cli = true ->
  forallb (trigger_ok cfg cli) (SERVICES cfg) = false ->
  let refused s :=
    negb (String.eqb (service_status cfg cli s) "ACTIVE"
          && Nat.eqb (snd (aws cli (redeploy_command cfg s))) 0) in
  main cfg cli
  = (opening cfg cli ++ flat_map (trigger_trace cfg cli) (SERVICES cfg)
     ++ [Log ERROR ("Failed to update services: "
                    ^ join (filter refused (SERVICES cfg)))],
     Exit 1)
  /\ filter refused (SERVICES cfg) <> [].
Proof.
  intros Hp Ht refused.
  assert (E : filter refused (SERVICES cfg)
              = filter (fun s => negb (trigger_ok cfg cli s)) (SERVICES cfg)).
  { apply filter_ext. intros s. unfold refused. now rewrite trigger_ok_iff. }
  rewrite E. split.
  - now apply main_trigger_failed.
  - now apply filter_some.
Qed.

Lemma trigger_failures_are_named_witness :
  In (Log ERROR "Failed to update services: users tasks")
    (trace (main fleet two_refused)).
Proof.
  destruct (trigger_failures_are_named fleet two_refused) as [H _];
    try reflexivity.
  rewrite H. unfold trace. cbn [fst].
  apply in_or_app. right. apply in_or_app. right. left. reflexivity.
Defined.

(** ** The order of the calls *)

(** In a run in which nothing fails before the summary, the calls are:
    the cluster lookup; then, for every service in list order, the status
    query and the redeployment; then, if waiting is enabled, the wait for
    every service; then the three audit queries of every service.  Every
    redeployment is issued before the first wait and every wait before
    the first audit query. *)
Theorem calls_in_phase_order (cfg : config) (cli : aws_cli) :
  prerequisites_met cfg cli = true ->
  forallb (trigger_ok cfg cli) (SERVICES cfg) = true ->
  forallb (audit_ok cfg cli) (SERVICES cfg) = true ->
  calls (trace (main cfg cli))
  = describe_clusters (CLUSTER_NAME cfg) (AWS_REGION cfg)
    :: flat_map (fun s => [status_query cfg s; redeploy_command cfg s])
         (SERVICES cfg)
    ++ (if String.eqb (WAIT_FOR_STABLE cfg) "true"
        then map (wait_command cfg) (SERVICES cfg) else [])
    ++ flat_map (fun s => [running_query cfg s; desired_query cfg s;
                           deployments_query cfg s])
         (SERVICES cfg).
Proof.
  intros Hp Ht Ha.
  rewrite (main_triggered cfg cli Hp Ht). cbv zeta.
  rewrite (conclude_clean cfg cli
             {| failed_services := []; updated_services := SERVICES cfg |} Ha).
  pose proof (calls_summary cfg
                (summary_arrays cfg cli
                   {| failed_services := [];
                      updated_services := SERVICES cfg |})) as Hsum.
  pose proof (wait_phase_calls cfg cli
                {| failed_services := []; updated_services := SERVICES cfg |})
    as Hw.
  unfold trace in *. cbn [fst updated_services] in *.
  rewrite !calls_app, calls_opening, Hsum, Hw.
  rewrite prerequisites_met_iff in Hp. apply andb_true_iff in Hp as [-> _].
  cbn [updated_services audit_header calls app]. rewrite app_nil_r.
  clear Hsum Hw. f_equal. f_equal; [|f_equal].
  - rewrite calls_flat_map. clear Ha.
    induction (SERVICES cfg) as [|s l IH]; [reflexivity|].
    cbn [forallb] in Ht. apply andb_true_iff in Ht as [Hs Hl].
    cbn [flat_map]. rewrite (IH Hl), calls_trigger_trace.
    rewrite trigger_ok_iff in Hs. apply andb_true_iff in Hs as [-> _].
    reflexivity.
  - rewrite calls_flat_map. clear Ht.
    induction (SERVICES cfg) as [|s l IH]; [reflexivity|].
    cbn [forallb] in Ha. apply andb_true_iff in Ha as [Hs Hl].
    cbn [flat_map]. rewrite (IH Hl), calls_audit_trace.
    apply andb_true_iff in Hs as [-> _]. reflexivity.
Qed.

Lemma calls_in_phase_order_witness :
  calls (trace (main auth_and_frontend healthy))
  = [describe_clusters "ecs-trial-cluster" "eu-west-1";
     status_query fleet "auth"; redeploy_command fleet "auth";
     status_query fleet "frontend"; redeploy_command fleet "frontend";
     wait_command fleet "auth"; wait_command fleet "frontend";
     running_query fleet "auth"; desired_query fleet "auth";
     deployments_query fleet "auth";
     running_query fleet "frontend"; desired_query fleet "frontend";
     deployments_query fleet "frontend"].
Proof.
  apply (calls_in_phase_order auth_and_frontend healthy); reflexivity.
Defined.

(** * Properties of build-and-push.sh *)

Section BuildProperties.

Import Build.
Local Open Scope build_scope.

Lemma build_bind_done {A B : Type} (m : sh A) (f : A -> sh B) (a : A) :
  snd m = Done a -> bind m f = (fst m ++ fst (f a), snd (f a)).
Proof. intros H. unfold bind. now rewrite H. Qed.

Lemma build_bind_exit {A B : Type} (m : sh A) (f : A -> sh B) (code : nat) :
  snd m = Exit code -> bind m f = (fst m, Exit code).
Proof. intros H. unfold bind. now rewrite H. Qed.

Lemma build_bind_pair {A B : Type} (t : list event) (a : A) (f : A -> sh B) :
  bind (t, Done a) f = (t ++ fst (f a), snd (f a)).
Proof. reflexivity. Qed.

Lemma commands_app (t u : list event) :
  commands (t ++ u) = commands t ++ commands u.
Proof.
  induction t as [|e t IH]; [reflexivity|].
  destruct e; simpl; now rewrite IH.
Qed.

Lemma commands_flat_map (f : string -> list event) (l : list string) :
  commands (flat_map f l) = flat_map (fun s => commands (f s)) l.
Proof.
  induction l as [|s l IH]; [reflexivity|].
  cbn. now rewrite commands_app, IH.
Qed.

Section BuildFunctions.

Variable cfg : config.
Variable h : host.

(** *** Prerequisites *)

(** The status with which the prerequisite check ends the shell. *)
Lemma build_prerequisites_outcome :
  snd (check_prerequisites cfg h)
  = if negb (docker_installed h && aws_installed h) then Exit 1
    else if negb (String.eqb (AWS_ACCOUNT_ID cfg) EmptyString)
    then Done (account_of cfg h)
    else if negb (Nat.eqb (snd (answer h sts_get_caller_identity)) 0)
    then Exit (snd (answer h sts_get_caller_identity))
    else if String.eqb (account_of cfg h) EmptyString then Exit 1
    else Done (account_of cfg h).
Proof.
  unfold check_prerequisites, account_of, errexit, bind. cbn.
  destruct (docker_installed h); cbn; [|reflexivity].
  destruct (aws_installed h); cbn; [|reflexivity].
  destruct (String.eqb (AWS_ACCOUNT_ID cfg) EmptyString) eqn:E; cbn;
    [|reflexivity].
  destruct (Nat.eqb (snd (answer h sts_get_caller_identity)) 0); cbn;
    [|reflexivity].
  destruct (String.eqb (command_subst _) EmptyString); reflexivity.
Qed.

Lemma build_prerequisites_resolved :
  prerequisites_met cfg h = true ->
  snd (check_prerequisites cfg h) = Done (account_of cfg h).
Proof.
  unfold prerequisites_met, completes. rewrite build_prerequisites_outcome.
  destruct (negb (docker_installed h && aws_installed h)); [discriminate|].
  destruct (negb (String.eqb (AWS_ACCOUNT_ID cfg) EmptyString));
    [reflexivity|].
  destruct (negb (Nat.eqb _ 0)); [discriminate|].
  destruct (String.eqb (account_of cfg h) EmptyString);
    [discriminate | reflexivity].
Qed.

Lemma commands_check_prerequisites :
  commands (fst (check_prerequisites cfg h))
  = if docker_installed h && aws_installed h
       && String.eqb (AWS_ACCOUNT_ID cfg) EmptyString
    then [sts_get_caller_identity] else [].
Proof.
  unfold check_prerequisites, errexit, bind. cbn.
  destruct (docker_installed h); cbn; [|reflexivity].
  destruct (aws_installed h); cbn; [|reflexivity].
  destruct (String.eqb (AWS_ACCOUNT_ID cfg) EmptyString); cbn; [|reflexivity].
  destruct (Nat.eqb (snd (answer h sts_get_caller_identity)) 0); cbn;
    [|reflexivity].
  destruct (String.eqb (command_subst _) EmptyString); reflexivity.
Qed.

(** *** Login *)

Lemma login_to_ecr_eq :
  login_to_ecr cfg h (account_of cfg h)
  = ([Log STEP "Logging in to Amazon ECR...";
      Run (ecr_get_login_password (AWS_REGION cfg));
      Run (login_command cfg h);
      Output (fst (answer h (login_command cfg h)))]
     ++ (if login_ok cfg h
         then [Log INFO "Successfully logged in to ECR ✓"] else []),
     if login_ok cfg h then Done tt
     else Exit (snd (answer h (login_command cfg h)))).
Proof.
  unfold login_to_ecr, login_pipeline, login_ok, login_command, errexit, bind.
  cbn.
  destruct (Nat.eqb (snd (answer h _)) 0) eqn:E; cbn; [|reflexivity].
  now rewrite E.
Qed.

(** *** One service *)

Lemma build_image_returns (s : string) :
  snd (build_image cfg h s) = Done (if build_ok cfg h s then 0 else 1).
Proof.
  unfold build_ok, returns_zero, build_image, bind. cbn.
  destruct (is_directory h _); cbn; [|reflexivity].
  destruct (is_file h _); cbn; [|reflexivity].
  destruct (Nat.eqb _ 0); reflexivity.
Qed.

Lemma build_ok_iff (s : string) :
  build_ok cfg h s
  = buildable h s
    && Nat.eqb (snd (answer h (build_command cfg s))) 0.
Proof.
  unfold build_ok, buildable, returns_zero, build_image, bind. cbn.
  destruct (is_directory h _); cbn; [|reflexivity].
  destruct (is_file h _); cbn; [|reflexivity].
  destruct (Nat.eqb _ 0); reflexivity.
Qed.

Lemma push_image_returns (s : string) :
  snd (push_image cfg h (account_of cfg h) s)
  = Done (if push_ok cfg h s then 0 else 1).
Proof.
  unfold push_ok, returns_zero, push_image, bind. cbn.
  destruct (Nat.eqb (snd (answer h (docker_push_version _))) 0); cbn;
    [|reflexivity].
  destruct (Nat.eqb (snd (answer h (docker_push_latest _))) 0); reflexivity.
Qed.

Lemma push_ok_iff (s : string) :
  push_ok cfg h s
  = Nat.eqb (snd (answer h (push_version_command cfg h s))) 0
    && Nat.eqb (snd (answer h (push_latest_command cfg h s))) 0.
Proof.
  unfold push_ok, push_version_command, push_latest_command, returns_zero,
    push_image, bind. cbn.
  destruct (Nat.eqb (snd (answer h (docker_push_version _))) 0); cbn;
    [|reflexivity].
  destruct (Nat.eqb (snd (answer h (docker_push_latest _))) 0); reflexivity.
Qed.

Lemma process_one_eq (s : string) (failed : list string) :
  process_one cfg h (account_of cfg h) s failed
  = (service_trace cfg h s,
     Done (if service_ok cfg h s then failed else failed ++ [s])).
Proof.
  unfold service_trace, service_ok, process_one, bind.
  cbn [echo log_info emit fst snd].
  rewrite build_image_returns.
  destruct (build_ok cfg h s); cbn [Nat.eqb negb fst snd andb log_warning emit
    ret]; [|reflexivity].
  rewrite push_image_returns.
  destruct (push_ok cfg h s); reflexivity.
Qed.

Lemma commands_service_trace (s : string) :
  commands (service_trace cfg h s) = service_commands cfg h s.
Proof.
  unfold service_trace, service_commands, buildable, process_one, build_image,
    push_image, tag_version_command, tag_latest_command, push_version_command,
    push_latest_command, bind. cbn.
  destruct (is_directory h _); cbn; [|reflexivity].
  destruct (is_file h _); cbn; [|reflexivity].
  destruct (Nat.eqb (snd (answer h (build_command cfg s))) 0); cbn;
    [|reflexivity].
  destruct (Nat.eqb (snd (answer h (docker_push_version _))) 0); cbn;
    [|reflexivity].
  destruct (Nat.eqb (snd (answer h (docker_push_latest _))) 0); reflexivity.
Qed.

Lemma process_loop (l : list string) (failed : list string) :
  for_each l (process_one cfg h (account_of cfg h)) failed
  = (flat_map (service_trace cfg h) l,
     Done (failed ++ filter (fun s => negb (service_ok cfg h s)) l)).
Proof.
  revert failed. induction l as [|s l IH]; intros failed.
  - cbn. now rewrite app_nil_r.
  - cbn [for_each flat_map filter]. rewrite process_one_eq.
    unfold bind. cbn [fst snd]. rewrite IH. cbn [fst snd].
    destruct (service_ok cfg h s); cbn [negb]; [reflexivity|].
    now rewrite <- app_assoc.
Qed.

Lemma build_items_loop (account : string) (l : list string) :
  for_each l
    (fun service _ =>
       echo ("  • " ^ remote_image cfg account service (IMAGE_TAG cfg))) tt
  = (map (fun s =>
            Echo ("  • " ^ remote_image cfg account s (IMAGE_TAG cfg))) l,
     Done tt).
Proof.
  induction l as [|s l IH]; [reflexivity|].
  cbn [for_each map]. unfold bind. cbn [echo emit fst snd].
  now rewrite IH.
Qed.

Lemma build_summary_eq (failed : list string) :
  summary cfg (account_of cfg h) failed
  = match failed with
    | [] =>
        (summary_head
         ++ [Log INFO "All services built and pushed successfully! ✓";
             Echo EmptyString; Log INFO "Images pushed:"]
         ++ map (item cfg h) (SERVICES cfg),
         Exit 0)
    | _ :: _ =>
        (summary_head
         ++ [Log ERROR ("The following services failed: " ^ join failed)],
         Exit 1)
    end.
Proof.
  unfold summary. destruct failed as [|s l]; [|reflexivity].
  cbn [List.length Nat.eqb]. unfold bind.
  cbn [echo log_info emit exit fst snd]. rewrite build_items_loop.
  cbn [fst snd app]. now rewrite app_nil_r.
Qed.

(** *** The run *)

Lemma main_logged_in :
  prerequisites_met cfg h = true ->
  login_ok cfg h = true ->
  let failed := filter (fun s => negb (service_ok cfg h s)) (SERVICES cfg) in
  main cfg h
  = (opening cfg h ++ flat_map (service_trace cfg h) (SERVICES cfg)
     ++ fst (summary cfg (account_of cfg h) failed),
     snd (summary cfg (account_of cfg h) failed)).
Proof.
  intros Hp Hl failed. unfold main, opening.
  assert (Hlogin : snd (login_to_ecr cfg h (account_of cfg h)) = Done tt)
    by now rewrite login_to_ecr_eq, Hl.
  rewrite (build_bind_done (banner cfg) _ tt eq_refl).
  rewrite (build_bind_done _ _ _ (build_prerequisites_resolved Hp)).
  rewrite (build_bind_done _ _ tt Hlogin).
  rewrite process_loop, build_bind_pair. cbn [app].
  now rewrite <- !app_assoc.
Qed.

End BuildFunctions.

Lemma build_main_unmet (cfg : config) (h : host) :
  prerequisites_met cfg h = false ->
  main cfg h
  = (fst (banner cfg) ++ fst (check_prerequisites cfg h),
     snd (main cfg h))
  /\ exists code, snd (main cfg h) = Exit code /\ code <> 0.
Proof.
  intros Hp. unfold main.
  rewrite (build_bind_done (banner cfg) _ tt eq_refl).
  unfold prerequisites_met, completes in Hp.
  destruct (snd (check_prerequisites cfg h)) as [a|code] eqn:E;
    [discriminate|].
  rewrite (build_bind_exit _ _ code E). cbn [fst snd].
  split; [reflexivity|]. exists code. split; [reflexivity|].
  rewrite build_prerequisites_outcome in E.
  destruct (negb (docker_installed h && aws_installed h));
    [injection E as <-; discriminate|].
  destruct (negb (String.eqb (AWS_ACCOUNT_ID cfg) EmptyString));
    [discriminate|].
  destruct (Nat.eqb (snd (answer h sts_get_caller_identity)) 0) eqn:En;
    cbn [negb] in E.
  - destruct (String.eqb (account_of cfg h) EmptyString);
      [injection E as <-; discriminate | discriminate].
  - injection E as <-. now apply Nat.eqb_neq.
Qed.

Lemma build_main_login_failed (cfg : config) (h : host) :
  prerequisites_met cfg h = true ->
  login_ok cfg h = false ->
  main cfg h
  = (fst (banner cfg) ++ fst (check_prerequisites cfg h)
     ++ [Log STEP "Logging in to Amazon ECR...";
         Run (ecr_get_login_password (AWS_REGION cfg));
         Run (login_command cfg h);
         Output (fst (answer h (login_command cfg h)))],
     Exit (snd (answer h (login_command cfg h)))).
Proof.
  intros Hp Hl. unfold main.
  rewrite (build_bind_done (banner cfg) _ tt eq_refl).
  rewrite (build_bind_done _ _ _ (build_prerequisites_resolved cfg h Hp)).
  rewrite login_to_ecr_eq, Hl. cbn [app].
  unfold bind at 1. cbn [fst snd]. reflexivity.
Qed.

(** ** The exit status of build-and-push.sh *)

Lemma build_exit_zero_by_outcomes (cfg : config) (h : host) :
  exit_status (main cfg h) = 0
  <-> prerequisites_met cfg h = true
      /\ login_ok cfg h = true
      /\ forallb
           (fun s =>
              buildable h s
              && Nat.eqb (snd (answer h (build_command cfg s))) 0
              && Nat.eqb (snd (answer h (push_version_command cfg h s))) 0
              && Nat.eqb (snd (answer h (push_latest_command cfg h s))) 0)
           (SERVICES cfg)
         = true.
Proof.
  assert (E : forallb
                (fun s =>
                   buildable h s
                   && Nat.eqb (snd (answer h (build_command cfg s))) 0
                   && Nat.eqb (snd (answer h (push_version_command cfg h s))) 0
                   && Nat.eqb (snd (answer h (push_latest_command cfg h s))) 0)
                (SERVICES cfg)
              = forallb (service_ok cfg h) (SERVICES cfg)).
  { induction (SERVICES cfg) as [|s l IH]; [reflexivity|].
    cbn [forallb]. rewrite IH. f_equal.
    unfold service_ok. rewrite build_ok_iff, push_ok_iff.
    now rewrite !andb_assoc. }
  rewrite E. clear E. unfold exit_status.
  destruct (prerequisites_met cfg h) eqn:Hp.
  - destruct (login_ok cfg h) eqn:Hl.
    + rewrite (main_logged_in cfg h Hp Hl). cbv zeta. cbn [snd].
      rewrite build_summary_eq.
      destruct (forallb (service_ok cfg h) (SERVICES cfg)) eqn:Hs.
      * rewrite (filter_none _ _ Hs). cbn. tauto.
      * pose proof (filter_some _ _ Hs) as Hne.
        destruct (filter _ (SERVICES cfg)); [contradiction|].
        cbn. split; [discriminate | intros (_ & _ & H); discriminate].
    + rewrite (build_main_login_failed cfg h Hp Hl). cbn [snd].
      unfold login_ok in Hl. apply Nat.eqb_neq in Hl.
      split; [intros H; contradiction | intros (_ & H & _); discriminate].
  - destruct (build_main_unmet cfg h Hp) as (_ & code & -> & Hc).
    split; [intros H; contradiction | intros (H & _); discriminate].
Qed.

Lemma build_prerequisites_met_iff (cfg : config) (h : host) :
  prerequisites_met cfg h = true
  <-> docker_installed h = true
      /\ aws_installed h = true
      /\ (AWS_ACCOUNT_ID cfg <> EmptyString
          \/ (snd (answer h sts_get_caller_identity) = 0
              /\ command_subst (fst (answer h sts_get_caller_identity))
                 <> EmptyString)).
Proof.
  unfold prerequisites_met, completes. rewrite build_prerequisites_outcome.
  unfold account_of.
  destruct (docker_installed h); cbn [andb negb];
    [|split; [discriminate | intros (H & _); discriminate]].
  destruct (aws_installed h); cbn [andb negb];
    [|split; [discriminate | intros (_ & H & _); discriminate]].
  destruct (String.eqb (AWS_ACCOUNT_ID cfg) EmptyString) eqn:Ea; cbn [negb].
  - apply String.eqb_eq in Ea.
    destruct (Nat.eqb (snd (answer h sts_get_caller_identity)) 0) eqn:En;
      cbn [negb].
    + apply Nat.eqb_eq in En.
      destruct (String.eqb (command_subst _) EmptyString) eqn:Ec.
      * apply String.eqb_eq in Ec. split; [discriminate|].
        intros (_ & _ & [H | [_ H]]); contradiction.
      * apply String.eqb_neq in Ec. split; [|reflexivity].
        intros _. repeat split. right. now split.
    + apply Nat.eqb_neq in En. split; [discriminate|].
      intros (_ & _ & [H | [H _]]); contradiction.
  - apply String.eqb_neq in Ea. split; [|reflexivity].
    intros _. repeat split. now left.
Qed.

(** The exit status is 0 exactly when both tools are installed, the
    account is known (configured, or printed by a successful [aws sts]),
    [docker login] succeeds and, for every service, the directory and its
    Dockerfile exist and [docker build] and both [docker push] commands
    succeed.  The statuses of [aws ecr get-login-password] and of the two
    [docker tag] commands play no role. *)
Theorem build_exit_zero_iff (cfg : config) (h : host) :
  exit_status (main cfg h) = 0
  <-> docker_installed h = true
      /\ aws_installed h = true
      /\ (AWS_ACCOUNT_ID cfg <> EmptyString
          \/ (snd (answer h sts_get_caller_identity) = 0
              /\ command_subst (fst (answer h sts_get_caller_identity))
                 <> EmptyString))
      /\ snd (answer h (login_command cfg h)) = 0
      /\ forallb
           (fun s =>
              buildable h s
              && Nat.eqb (snd (answer h (build_command cfg s))) 0
              && Nat.eqb (snd (answer h (push_version_command cfg h s))) 0
              && Nat.eqb (snd (answer h (push_latest_command cfg h s))) 0)
           (SERVICES cfg)
         = true.
Proof.
  rewrite build_exit_zero_by_outcomes, build_prerequisites_met_iff.
  unfold login_ok. rewrite Nat.eqb_eq. tauto.
Qed.

Lemma build_exit_zero_iff_witness : exit_status (main fleet ready) = 0.
Proof.
  apply (build_exit_zero_iff fleet ready).
  split; [reflexivity|]. split; [reflexivity|].
  split; [right; split; [reflexivity | discriminate]|].
  split; reflexivity.
Defined.

(** ** What the loop does for each service *)

(** Once logged in, the run issues, for every service in list order:
    nothing if the directory or its Dockerfile is missing; otherwise
    [docker build]; after a successful build the two tags and the push of
    the versioned image; and after that push succeeded, the push of
    [latest].  A service that fails does not stop the loop, and the
    status of a [docker tag] changes nothing. *)
Theorem build_commands_per_service (cfg : config) (h : host) :
  prerequisites_met cfg h = true ->
  login_ok cfg h = true ->
  filter is_docker (commands (fst (main cfg h)))
  = login_command cfg h :: flat_map (service_commands cfg h) (SERVICES cfg).
Proof.
  intros Hp Hl. rewrite (main_logged_in cfg h Hp Hl). cbv zeta.
  cbn [fst]. unfold opening.
  rewrite !commands_app, !filter_app, commands_check_prerequisites,
    login_to_ecr_eq, Hl.
  assert (Hb : commands (fst (banner cfg)) = []) by reflexivity.
  rewrite Hb.
  assert (Hs : forall failed,
             commands (fst (summary cfg (account_of cfg h) failed)) = []).
  { intros failed. rewrite build_summary_eq.
    destruct failed; [|reflexivity]. cbn [fst].
    rewrite !commands_app. cbn.
    induction (SERVICES cfg) as [|s l IH]; [reflexivity | exact IH]. }
  rewrite Hs. cbn [fst app commands filter is_docker].
  rewrite app_nil_r.
  assert (Hsts : filter is_docker
                   (if docker_installed h && aws_installed h
                       && String.eqb (AWS_ACCOUNT_ID cfg) EmptyString
                    then [sts_get_caller_identity] else []) = []).
  { now destruct (docker_installed h && aws_installed h
                  && String.eqb (AWS_ACCOUNT_ID cfg) EmptyString). }
  rewrite Hsts. cbn [app]. unfold login_command at 1. cbn [is_docker app].
  clear Hs Hsts Hb. f_equal. rewrite commands_flat_map.
  induction (SERVICES cfg) as [|s l IH]; [reflexivity|].
  cbn [flat_map]. rewrite filter_app, IH, commands_service_trace.
  f_equal. unfold service_commands, tag_version_command, tag_latest_command,
    push_version_command, push_latest_command, build_command.
  destruct (buildable h s); [|reflexivity]. cbn [filter is_docker].
  destruct (Nat.eqb _ 0); [|reflexivity]. cbn [filter is_docker].
  destruct (Nat.eqb _ 0); reflexivity.
Qed.

(** ** The report *)

(** Once logged in, the run goes through every service and ends with the
    summary: when no build or push failed, status 0 and one image line
    for every service of the list; otherwise status 1 and the error
    naming, in list order, exactly the services whose build or push
    failed. *)
Theorem build_report (cfg : config) (h : host) :
  prerequisites_met cfg h = true ->
  login_ok cfg h = true ->
  let failed := filter (fun s => negb (service_ok cfg h s)) (SERVICES cfg) in
  main cfg h
  = (opening cfg h ++ flat_map (service_trace cfg h) (SERVICES cfg)
     ++ summary_head
     ++ match failed with
        | [] =>
            [Log INFO "All services built and pushed successfully! ✓";
             Echo EmptyString; Log INFO "Images pushed:"]
            ++ map (item cfg h) (SERVICES cfg)
        | _ :: _ =>
            [Log ERROR ("The following services failed: " ^ join failed)]
        end,
     Exit (match failed with [] => 0 | _ :: _ => 1 end)).
Proof.
  intros Hp Hl failed. rewrite (main_logged_in cfg h Hp Hl). cbv zeta.
  fold failed. rewrite build_summary_eq. now destruct failed.
Qed.

Lemma build_report_witness :
  exit_status (main fleet tasks_missing) = 1
  /\ In (Log ERROR "The following services failed: tasks")
       (fst (main fleet tasks_missing)).
Proof.
  pose proof (build_report fleet tasks_missing eq_refl eq_refl) as H.
  cbv zeta in H. rewrite H. split; [reflexivity|].
  cbn [fst]. do 3 (apply in_or_app; right). left. reflexivity.
Defined.

(** ** Login *)

(** When [docker login] fails, the shell ends at the pipeline of line 77
    with the status of [docker login]: nothing is logged after the output
    of the command (the branch of line 84 is never taken) and no image is
    built. *)
Theorem login_failure_ends_build (cfg : config) (h : host) :
  prerequisites_met cfg h = true ->
  snd (answer h (login_command cfg h)) <> 0 ->
  main cfg h
  = (fst (banner cfg) ++ fst (check_prerequisites cfg h)
     ++ [Log STEP "Logging in to Amazon ECR...";
         Run (ecr_get_login_password (AWS_REGION cfg));
         Run (login_command cfg h);
         Output (fst (answer h (login_command cfg h)))],
     Exit (snd (answer h (login_command cfg h))))
  /\ filter is_docker (commands (fst (main cfg h))) = [login_command cfg h].
Proof.
  intros Hp Hl.
  assert (Hl' : login_ok cfg h = false) by now apply Nat.eqb_neq.
  rewrite (build_main_login_failed cfg h Hp Hl'). split; [reflexivity|].
  cbn [fst]. rewrite !commands_app, !filter_app, commands_check_prerequisites.
  assert (Hb : commands (fst (banner cfg)) = []) by reflexivity.
  rewrite Hb.
  destruct (docker_installed h && aws_installed h
            && String.eqb (AWS_ACCOUNT_ID cfg) EmptyString); reflexivity.
Qed.

Lemma login_failure_ends_build_witness :
  let h :=
    answering
      (docker_login "123456789012.dkr.ecr.eu-west-1.amazonaws.com"
         (line "secret"))
      (line "denied", 7) ready in
  exit_status (main fleet h) = 7.
Proof.
  cbv zeta.
  destruct (login_failure_ends_build fleet
              (answering
                 (docker_login "123456789012.dkr.ecr.eu-west-1.amazonaws.com"
                    (line "secret"))
                 (line "denied", 7) ready)) as [H _].
  - reflexivity.
  - vm_compute. discriminate.
  - rewrite H. reflexivity.
Defined.

(** ** The account *)

(** With both tools installed and no [AWS_ACCOUNT_ID], a failing [aws
    sts] ends the shell at the assignment of line 62 with the status of
    that command, after the warning and without any error message; [aws
    sts] succeeding with empty output ends it with status 1.  Either way
    [aws sts] is the only command of the run. *)
Theorem unknown_account_ends_build (cfg : config) (h : host) :
  docker_installed h = true ->
  aws_installed h = true ->
  AWS_ACCOUNT_ID cfg = EmptyString ->
  let r := answer h sts_get_caller_identity in
  snd r <> 0 \/ command_subst (fst r) = EmptyString ->
  main cfg h
  = (fst (banner cfg)
     ++ [Log STEP "Checking prerequisites...";
         Log WARNING "AWS_ACCOUNT_ID not set. Attempting to retrieve...";
         Run sts_get_caller_identity]
     ++ (if Nat.eqb (snd r) 0
         then [Log ERROR "Could not determine AWS Account ID. Please set AWS_ACCOUNT_ID environment variable."]
         else []),
     Exit (if Nat.eqb (snd r) 0 then 1 else snd r)).
Proof.
  intros Hd Ha He r H. unfold main.
  rewrite (build_bind_done (banner cfg) _ tt eq_refl).
  unfold check_prerequisites, errexit, bind. fold r.
  rewrite Hd, Ha, He. cbn. fold r.
  destruct (Nat.eqb (snd r) 0) eqn:E; cbn; [|reflexivity].
  destruct H as [H | H]; [now apply Nat.eqb_neq in H; rewrite H in E|].
  rewrite H. reflexivity.
Qed.

Lemma unknown_account_ends_build_witness :
  exit_status
    (main fleet (answering sts_get_caller_identity (EmptyString, 255) ready))
  = 255
  /\ exit_status
       (main fleet (answering sts_get_caller_identity (line EmptyString, 0) ready))
     = 1.
Proof.
  split.
  - rewrite (unknown_account_ends_build fleet
               (answering sts_get_caller_identity (EmptyString, 255) ready)
               eq_refl eq_refl eq_refl).
    + reflexivity.
    + left. vm_compute. discriminate.
  - rewrite (unknown_account_ends_build fleet
               (answering sts_get_caller_identity (line EmptyString, 0) ready)
               eq_refl eq_refl eq_refl).
    + reflexivity.
    + right. reflexivity.
Defined.

Lemma build_commands_per_service_witness :
  filter is_docker (commands (fst (main fleet tasks_missing)))
  = [login_command fleet tasks_missing;
     build_command fleet "auth"; tag_version_command fleet tasks_missing "auth";
     tag_latest_command fleet tasks_missing "auth";
     push_version_command fleet tasks_missing "auth";
     push_latest_command fleet tasks_missing "auth";
     build_command fleet "users";
     tag_version_command fleet tasks_missing "users";
     tag_latest_command fleet tasks_missing "users";
     push_version_command fleet tasks_missing "users";
     push_latest_command fleet tasks_missing "users";
     build_command fleet "frontend";
     tag_version_command fleet tasks_missing "frontend";
     tag_latest_command fleet tasks_missing "frontend";
     push_version_command fleet tasks_missing "frontend";
     push_latest_command fleet tasks_missing "frontend"].
Proof.
  rewrite (build_commands_per_service fleet tasks_missing eq_refl eq_refl).
  reflexivity.
Defined.

(** ** The aws commands *)

(** In every run, [aws sts] is consulted exactly when both tools are
    installed and [AWS_ACCOUNT_ID] is empty, and [aws ecr
    get-login-password] is run exactly when the prerequisite check
    passes; each at most once, and no other [aws] command is run. *)
Theorem build_aws_commands (cfg : config) (h : host) :
  filter (fun c => negb (is_docker c)) (commands (fst (main cfg h)))
  = (if docker_installed h && aws_installed h
        && String.eqb (AWS_ACCOUNT_ID cfg) EmptyString
     then [sts_get_caller_identity] else [])
    ++ (if prerequisites_met cfg h
        then [ecr_get_login_password (AWS_REGION cfg)] else []).
Proof.
  assert (Hb : commands (fst (banner cfg)) = []) by reflexivity.
  assert (Hsts : forall b : bool,
             filter (fun c => negb (is_docker c))
               (if b then [sts_get_caller_identity] else [])
             = if b then [sts_get_caller_identity] else [])
    by now intros [].
  destruct (prerequisites_met cfg h) eqn:Hp.
  - destruct (login_ok cfg h) eqn:Hl.
    + rewrite (main_logged_in cfg h Hp Hl). cbv zeta. cbn [fst].
      unfold opening.
      rewrite !commands_app, !filter_app, commands_check_prerequisites, Hb,
        Hsts, login_to_ecr_eq, Hl.
      cbn [fst app commands filter is_docker negb login_command].
      assert (Hs : filter (fun c => negb (is_docker c))
                     (commands (flat_map (service_trace cfg h) (SERVICES cfg)))
                   = []).
      { rewrite commands_flat_map.
        induction (SERVICES cfg) as [|s l IH]; [reflexivity|].
        cbn [flat_map]. rewrite filter_app, IH, commands_service_trace.
        unfold service_commands, tag_version_command, tag_latest_command,
          push_version_command, push_latest_command, build_command.
        destruct (buildable h s); [|reflexivity]. cbn.
        destruct (Nat.eqb _ 0); [|reflexivity]. cbn.
        destruct (Nat.eqb _ 0); reflexivity. }
      rewrite Hs. cbn [app].
      assert (Hsum : commands
                       (fst (summary cfg (account_of cfg h)
                               (filter (fun s => negb (service_ok cfg h s))
                                  (SERVICES cfg)))) = []).
      { clear Hs. rewrite build_summary_eq.
        destruct (filter _ (SERVICES cfg)); [|reflexivity]. cbn [fst].
        rewrite !commands_app. cbn.
        induction (SERVICES cfg) as [|s l IH]; [reflexivity | exact IH]. }
      rewrite Hsum. cbn [filter]. now rewrite app_nil_r.
    + rewrite (build_main_login_failed cfg h Hp Hl). cbn [fst].
      rewrite !commands_app, !filter_app, commands_check_prerequisites, Hb,
        Hsts.
      reflexivity.
  - destruct (build_main_unmet cfg h Hp) as (-> & _). cbn [fst].
    rewrite !commands_app, !filter_app, commands_check_prerequisites, Hb, Hsts.
    cbn [filter app]. now rewrite app_nil_r.
Qed.

End BuildProperties.

(** * The two scripts together *)

(** From the same environment and arguments, both scripts work on the
    same region, environment name and list of services; that list is
    never empty, names no service twice and holds no empty name, and only
    the first argument counts. *)
Theorem scripts_share_configuration (getenv : string -> option string)
  (args : list string) :
  let u := configure getenv args in
  let b := Build.configure getenv args in
  Build.AWS_REGION b = AWS_REGION u
  /\ Build.ENVIRONMENT_NAME b = ENVIRONMENT_NAME u
  /\ Build.SERVICES b = SERVICES u
  /\ SERVICES u <> []
  /\ NoDup (SERVICES u)
  /\ ~ In EmptyString (SERVICES u)
  /\ forall a rest,
       SERVICES (configure getenv (a :: rest))
       = SERVICES (configure getenv [a]).
Proof.
  cbv zeta. repeat split.
  - apply services_not_empty.
  - unfold configure. cbn [SERVICES].
    destruct (String.eqb (arg1 args) EmptyString).
    + repeat constructor; cbn; intuition discriminate.
    + repeat constructor. intros [].
  - unfold configure. cbn [SERVICES].
    destruct (String.eqb (arg1 args) EmptyString) eqn:E.
    + cbn. intuition discriminate.
    + intros [H | []]. rewrite H in E. discriminate.
Qed.

(** * Properties of the tasks service *)

Section TasksProperties.

Import Tasks.

Lemma append_assoc (a b c : string) : (a ^ b) ^ c = a ^ b ^ c.
Proof. induction a as [|x a IH]; cbn; [reflexivity | now rewrite IH]. Qed.

Lemma append_empty_r (a : string) : a ^ EmptyString = a.
Proof. induction a as [|x a IH]; cbn; [reflexivity | now rewrite IH]. Qed.

Lemma prefix_empty (s : string) : String.prefix EmptyString s = true.
Proof. now destruct s. Qed.

Lemma prefix_append (p x r : string) :
  String.length p <= String.length x ->
  String.prefix p (x ^ r) = String.prefix p x.
Proof.
  revert x. induction p as [|a p IH]; intros x H.
  - now rewrite !prefix_empty.
  - destruct x as [|b x]; cbn in H; [lia|].
    cbn. destruct (ascii_dec a b); [|reflexivity].
    apply IH. lia.
Qed.

(** At an occurrence of the separator the piece read so far is closed. *)
Lemma split_at_separator (rest current : string) :
  split_from TASK_SPLIT (TASK_SPLIT ^ rest) current 0
  = current :: split_from TASK_SPLIT rest EmptyString 0.
Proof. destruct rest; reflexivity. Qed.

Lemma split_entry (e rest current : string) :
  separator_free e = true ->
  split_from TASK_SPLIT (e ^ TASK_SPLIT ^ rest) current 0
  = (current ^ e) :: split_from TASK_SPLIT rest EmptyString 0.
Proof.
  revert current. induction e as [|c e IH]; intros current H.
  - rewrite append_empty_r. apply split_at_separator.
  - cbn [separator_free] in H. apply andb_true_iff in H as [Hc He].
    apply negb_true_iff in Hc.
    change (String c e ^ TASK_SPLIT ^ rest)
      with (String c (e ^ TASK_SPLIT ^ rest)).
    cbn [split_from].
    replace (String.prefix TASK_SPLIT (String c (e ^ TASK_SPLIT ^ rest)))
      with false.
    + rewrite (IH _ He). now rewrite append_assoc.
    + rewrite <- Hc. symmetry.
      change (String c (e ^ TASK_SPLIT ^ rest))
        with (String c e ^ TASK_SPLIT ^ rest).
      rewrite <- append_assoc. apply prefix_append.
      rewrite length_append. cbn. lia.
Qed.

Lemma split_tail (s current : string) :
  no_separator s = true ->
  split_from TASK_SPLIT s current 0 = [current ^ s].
Proof.
  revert current. induction s as [|c s IH]; intros current H.
  - now rewrite append_empty_r.
  - cbn [no_separator] in H. apply andb_true_iff in H as [Hc Hs].
    apply negb_true_iff in Hc. cbn [split_from]. rewrite Hc.
    rewrite (IH _ Hs). now rewrite append_assoc.
Qed.

Lemma split_from_not_empty (s current : string) (skip : nat) :
  split_from TASK_SPLIT s current skip <> [].
Proof.
  revert current skip. induction s as [|c s IH]; intros current skip.
  - discriminate.
  - cbn [split_from]. destruct skip; [|apply IH].
    destruct (String.prefix TASK_SPLIT (String c s)); [discriminate | apply IH].
Qed.

Section Runtime.

Variable js : runtime.

Lemma split_framed (l : list (value js)) (tail : string) :
  Forall (fun v => separator_free (stringify js v) = true) l ->
  split TASK_SPLIT (framed js l ^ tail)
  = map (stringify js) l ++ split TASK_SPLIT tail.
Proof.
  unfold split. induction 1 as [|v l Hv _ IH]; [reflexivity|].
  cbn [framed map app]. rewrite !append_assoc.
  rewrite (split_entry _ _ _ Hv). cbn [append]. now rewrite IH.
Qed.

Lemma parse_all_stringified (l : list (value js)) :
  Forall (fun v => parse js (stringify js v) = Some v) l ->
  parse_all js (map (stringify js) l) = Some l.
Proof.
  induction 1 as [|v l Hv _ IH]; [reflexivity|].
  cbn [map parse_all]. now rewrite Hv, IH.
Qed.

Lemma parse_all_fails (l : list (value js)) (e : string)
  (entries : list string) :
  parse js e = None ->
  parse_all js (map (stringify js) l ++ e :: entries) = None.
Proof.
  intros He. induction l as [|v l IH]; cbn [map app parse_all].
  - now rewrite He.
  - rewrite IH. now destruct (parse js (stringify js v)).
Qed.

Lemma storable_all (l : list (value js)) :
  Forall (storable js) l ->
  Forall (fun v => parse js (stringify js v) = Some v) l
  /\ Forall (fun v => separator_free (stringify js v) = true) l.
Proof.
  induction 1 as [|v l [Hp Hs] _ [IHp IHs]]; split; constructor; assumption.
Qed.

Lemma framed_app (l k : list (value js)) :
  framed js (l ++ k) = framed js l ^ framed js k.
Proof.
  induction l as [|v l IH]; [reflexivity|].
  cbn [app framed]. now rewrite IH, !append_assoc.
Qed.

(** What a sequence of requests leaves on a disk that can be written. *)
Lemma post_all_disk (rs : list (request js)) (d : disk) :
  writable d = true ->
  rs <> [] \/ file d <> None ->
  post_all js rs d
  = {| file := Some (content d ^ framed js (map (task_of js) rs));
       readable := readable d;
       writable := writable d |}.
Proof.
  revert d. induction rs as [|[[a title] text] rs IH]; intros d Hw H.
  - destruct H as [H | H]; [contradiction|].
    destruct d as [[text|] r w]; [|contradiction].
    cbn. now rewrite append_empty_r.
  - cbn [post_all]. unfold post_task, extractAndVerifyToken, appendFile.
    rewrite Hw. cbn [snd]. rewrite IH.
    + cbn [file readable writable content map framed]. unfold task_of.
      cbn [fst snd]. f_equal. f_equal.
      unfold content. destruct (file d); rewrite ?append_assoc; reflexivity.
    + reflexivity.
    + right. discriminate.
Qed.

End Runtime.

(** ** Storing and loading *)

(** Round trip.  On a disk that can be read and written and whose tasks
    file holds the storable values [l0], after any sequence of
    [POST /tasks] requests, whatever their authorization headers,
    [GET /tasks] answers 200 with the tasks already there followed by the
    task of every request, in order, provided each task is storable:
    [JSON.parse] gives it back from its text and the separator does not
    occur in that text.  The same holds when the file does not exist yet
    and at least one request is made; as long as the file does not exist,
    [GET /tasks] answers 500. *)
Theorem stored_tasks_are_loaded (js : runtime) (l0 : list (value js))
  (rs : list (request js)) (authorization : option string) (d : disk) :
  readable d = true ->
  writable d = true ->
  file d = Some (framed js l0) \/ (file d = None /\ l0 = [] /\ rs <> []) ->
  Forall (storable js) l0 ->
  Forall (storable js) (map (task_of js) rs) ->
  get_tasks js authorization (post_all js rs d)
  = Loaded js 200 "Tasks loaded. I too good. No be lie my brotherrr"
      (l0 ++ map (task_of js) rs)
  /\ (file d = None ->
      get_tasks js authorization d
      = Message js 500 "Loading the tasks failed. Chai!!!").
Proof.
  intros Hr Hw Hf H0 Hrs. split.
  - assert (Hc : content d = framed js l0).
    { unfold content. destruct Hf as [-> | (-> & -> & _)]; reflexivity. }
    rewrite post_all_disk; trivial.
    + unfold get_tasks, extractAndVerifyToken, readFile.
      cbn [readable file]. rewrite Hr, Hc, <- framed_app.
      assert (Hall : Forall (storable js) (l0 ++ map (task_of js) rs))
        by (apply Forall_app; now split).
      apply storable_all in Hall as [Hp Hs].
      rewrite <- (append_empty_r (framed js _)).
      rewrite (split_framed js _ _ Hs). cbn [split split_from].
      rewrite removelast_last. now rewrite (parse_all_stringified js _ Hp).
    + destruct Hf as [Hf | (_ & _ & Hne)]; [right | now left].
      rewrite Hf. discriminate.
  - intros Hn. unfold get_tasks, extractAndVerifyToken, readFile.
    now rewrite Hr, Hn.
Qed.

Lemma stored_tasks_are_loaded_witness :
  get_tasks two_tasks (Some "Bearer abcd")
    (post_all two_tasks
       [(None, None, None); (Some "Bearer abcd", Some true, Some true)] fresh)
  = Loaded two_tasks 200 "Tasks loaded. I too good. No be lie my brotherrr"
      [false; true]
  /\ get_tasks two_tasks (Some "Bearer abcd") fresh
     = Message two_tasks 500 "Loading the tasks failed. Chai!!!".
Proof.
  destruct (stored_tasks_are_loaded two_tasks []
              [(None, None, None); (Some "Bearer abcd", Some true, Some true)]
              (Some "Bearer abcd") fresh) as [H1 H2].
  - reflexivity.
  - reflexivity.
  - right. repeat split. discriminate.
  - constructor.
  - repeat constructor.
  - split; [exact H1 | exact (H2 eq_refl)].
Defined.

(** ** Files that are not well formed *)

(** What follows the last separator in the file is dropped without
    notice: a file holding storable values followed by any text without
    a separator loads as those values alone (and a file without any
    separator loads as no task at all). *)
Theorem unterminated_tail_is_dropped (js : runtime) (l : list (value js))
  (tail : string) (authorization : option string) (d : disk) :
  readable d = true ->
  file d = Some (framed js l ^ tail) ->
  Forall (storable js) l ->
  no_separator tail = true ->
  get_tasks js authorization d
  = Loaded js 200 "Tasks loaded. I too good. No be lie my brotherrr" l.
Proof.
  intros Hr Hf Hl Ht.
  unfold get_tasks, extractAndVerifyToken, readFile. rewrite Hr, Hf.
  apply storable_all in Hl as [Hp Hs].
  rewrite (split_framed js _ _ Hs). unfold split at 1.
  rewrite (split_tail _ _ Ht), removelast_last.
  now rewrite (parse_all_stringified js _ Hp).
Qed.

Lemma unterminated_tail_is_dropped_witness :
  get_tasks two_tasks None
    {| file := Some ("{}TASK_SPLIT{" ^ dquote ^ "title");
       readable := true; writable := true |}
  = Loaded two_tasks 200 "Tasks loaded. I too good. No be lie my brotherrr"
      [false].
Proof.
  apply (unterminated_tail_is_dropped two_tasks [false]
           ("{" ^ dquote ^ "title")).
  - reflexivity.
  - reflexivity.
  - repeat constructor.
  - reflexivity.
Defined.

(** An entry that [JSON.parse] rejects is not answered with an error
    status: the exception escapes the callback of [fs.readFile], whatever
    else the file holds. *)
Theorem unparsable_entry_escapes (js : runtime) (l : list (value js))
  (e rest : string) (authorization : option string) (d : disk) :
  readable d = true ->
  file d = Some (framed js l ^ e ^ TASK_SPLIT ^ rest) ->
  Forall (fun v => separator_free (stringify js v) = true) l ->
  separator_free e = true ->
  parse js e = None ->
  get_tasks js authorization d = Uncaught js.
Proof.
  intros Hr Hf Hl He Hp.
  unfold get_tasks, extractAndVerifyToken, readFile. rewrite Hr, Hf.
  rewrite (split_framed js _ _ Hl). unfold split at 1.
  rewrite (split_entry _ _ _ He). cbn [append].
  change (map (stringify js) l
          ++ e :: split_from TASK_SPLIT rest EmptyString 0)
    with (map (stringify js) l
          ++ [e] ++ split_from TASK_SPLIT rest EmptyString 0).
  rewrite app_assoc, removelast_app by apply split_from_not_empty.
  rewrite <- app_assoc. cbn [app].
  now rewrite (parse_all_fails js _ _ _ Hp).
Qed.

Lemma unparsable_entry_escapes_witness :
  get_tasks two_tasks None
    {| file := Some "{}TASK_SPLIT{ title }TASK_SPLIT{}TASK_SPLIT";
       readable := true; writable := true |}
  = Uncaught two_tasks.
Proof.
  apply (unparsable_entry_escapes two_tasks [false] "{ title }"
           "{}TASK_SPLIT").
  - reflexivity.
  - reflexivity.
  - repeat constructor.
  - reflexivity.
  - reflexivity.
Defined.

(** A task whose JSON text holds the separator makes the store
    unreadable.  Once it is posted, to a disk whose file holds tasks
    without separator or does not exist yet, every [GET /tasks], whatever
    is posted afterwards, ends in the exception of [JSON.parse]: the file
    is cut inside the text of the task, and [JSON.parse] rejects the part
    before the separator (it is a proper prefix of the text of an
    object). *)
Theorem separator_in_task_breaks_store (js : runtime)
  (l0 : list (value js)) (title text : option (value js)) (a b : string)
  (rs : list (request js)) (authorization posted : option string)
  (d : disk) :
  readable d = true ->
  writable d = true ->
  file d = Some (framed js l0) \/ (file d = None /\ l0 = []) ->
  Forall (fun v => separator_free (stringify js v) = true) l0 ->
  stringify js (task_object js title text) = a ^ TASK_SPLIT ^ b ->
  separator_free a = true ->
  parse js a = None ->
  get_tasks js authorization (post_all js ((posted, title, text) :: rs) d)
  = Uncaught js.
Proof.
  intros Hr Hw Hf Hl Hs Ha Hp.
  assert (Hc : content d = framed js l0).
  { unfold content. destruct Hf as [-> | (-> & ->)]; reflexivity. }
  rewrite post_all_disk; [|exact Hw | left; discriminate].
  unfold get_tasks, extractAndVerifyToken, readFile.
  cbn [readable file map framed]. rewrite Hr, Hc.
  unfold task_of at 1. cbn [fst snd]. rewrite Hs, !append_assoc.
  rewrite (split_framed js _ _ Hl). unfold split at 1.
  rewrite (split_entry _ _ _ Ha). cbn [append].
  change (map (stringify js) l0
          ++ a :: split_from TASK_SPLIT
                    (b ^ TASK_SPLIT ^ framed js (map (task_of js) rs))
                    EmptyString 0)
    with (map (stringify js) l0
          ++ [a] ++ split_from TASK_SPLIT
                      (b ^ TASK_SPLIT ^ framed js (map (task_of js) rs))
                      EmptyString 0).
  rewrite app_assoc, removelast_app by apply split_from_not_empty.
  rewrite <- app_assoc. cbn [app].
  now rewrite (parse_all_fails js _ _ _ Hp).
Qed.

Lemma separator_in_task_breaks_store_witness :
  stringify plain_json
    (task_object plain_json (Some (Text "Buy TASK_SPLIT tape")) None)
  = "{" ^ quoted "title" ^ ":" ^ quoted "Buy TASK_SPLIT tape" ^ "}"
  /\ get_tasks plain_json None
       (post_all plain_json
          [(None, Some (Text "Buy TASK_SPLIT tape"), None);
           (None, Some (Text "Pay rent"), Some (Text "today"))]
          fresh)
     = Uncaught plain_json.
Proof.
  split; [reflexivity|].
  apply (separator_in_task_breaks_store plain_json []
           (Some (Text "Buy TASK_SPLIT tape")) None
           ("{" ^ quoted "title" ^ ":" ^ dquote ^ "Buy ")
           (" tape" ^ dquote ^ "}")
           [(None, Some (Text "Pay rent"), Some (Text "today"))]
           None None fresh).
  - reflexivity.
  - reflexivity.
  - right. split; reflexivity.
  - constructor.
  - reflexivity.
  - reflexivity.
  - reflexivity.
Defined.

End TasksProperties.
